(** * brain-score: the benchmark notebook, embedded and verified

    A shallow embedding of [examples/benchmarks.ipynb]: the mock brain model
    [RandomITModel] (first code cell) and the custom benchmark [MyBenchmark]
    (last code cell), together with the small part of the Python runtime,
    numpy and xarray that the two classes lean on.

    Python objects become records, [print] and attribute assignment become
    updates of an explicit state, and a raised exception becomes the [Raise]
    outcome of a computation that keeps the state it had reached.  Numbers
    that numpy holds as float64 are binary64 floats here as well. *)

From Stdlib Require Import ZArith List String Ascii Bool Lia Floats DecimalString.
Import ListNotations.
Local Open Scope string_scope.
Local Open Scope list_scope.

(* ================================================================= *)
(** ** Python runtime *)

Module Py.

(** The exceptions that the embedded code can raise. *)
Inductive exn : Type :=
| NotImplementedError (msg : string)
| IndexError (msg : string)
| KeyError (key : string)
| ValueError (msg : string)
| AttributeError (attr : string).

Inductive result (A : Type) : Type :=
| Ok (a : A)
| Raise (e : exn).
Arguments Ok {A} a.
Arguments Raise {A} e.

Definition is_raise {A} (r : result A) : bool :=
  match r with Ok _ => false | Raise _ => true end.

(** Values that end up as coordinate labels of an assembly; [PyNaN] is
    the float [nan], which no value equals, not even itself. *)
Inductive pyval : Type :=
| PyNone
| PyInt (z : Z)
| PyStr (s : string)
| PyNaN.

Definition of_option (o : option Z) : pyval :=
  match o with None => PyNone | Some z => PyInt z end.

(** A computation over a state [St]: it ends normally or by raising, and
    either way the state reached so far is kept (what was printed before a
    [raise] stays printed). *)
Definition M (St A : Type) : Type := St -> result A * St.

Definition ret {St A} (a : A) : M St A := fun s => (Ok a, s).

Definition bind {St A B} (c : M St A) (k : A -> M St B) : M St B :=
  fun s =>
    match c s with
    | (Ok a, s') => k a s'
    | (Raise e, s') => (Raise e, s')
    end.

Definition raise {St A} (e : exn) : M St A := fun s => (Raise e, s).

(** Lifts the outcome of a call that has no effect on the state. *)
Definition lift {St A} (r : result A) : M St A := fun s => (r, s).

Definition modify {St} (f : St -> St) : M St unit := fun s => (Ok tt, f s).

Definition outcome {St A} (c : M St A) (s : St) : result A := fst (c s).
Definition exec {St A} (c : M St A) (s : St) : St := snd (c s).

Declare Scope py_scope.
Delimit Scope py_scope with py.
Notation "x <- c ;; k" := (bind c (fun x => k))
  (at level 61, c at next level, right associativity) : py_scope.
Notation "c ;; k" := (bind c (fun _ => k))
  (at level 61, right associativity) : py_scope.

(** States that carry the standard output, one entry per call of [print]
    (the text of a call can run over several lines). *)
Class Stdout (St : Type) : Type :=
  { get_stdout : St -> list string;
    set_stdout : list string -> St -> St }.

Definition print {St} `{Stdout St} (line : string) : M St unit :=
  modify (fun s => set_stdout (get_stdout s ++ [line]) s).

(** An object together with the console it prints to. *)
Record Console (Obj : Type) : Type :=
  { obj : Obj; stdout : list string }.
Arguments obj {Obj} _.
Arguments stdout {Obj} _.

#[export] Instance Console_Stdout (Obj : Type) : Stdout (Console Obj) :=
  { get_stdout := stdout;
    set_stdout := fun out c => {| obj := obj c; stdout := out |} }.

Definition get_self {Obj} : M (Console Obj) Obj :=
  fun c => (Ok (obj c), c).
Definition set_self {Obj} (o : Obj) : M (Console Obj) unit :=
  modify (fun c => {| obj := o; stdout := stdout c |}).

(** [str] of integers. *)
Definition str_nat (n : nat) : string := NilZero.string_of_uint (Nat.to_uint n).
Definition str_Z (z : Z) : string := NilZero.string_of_int (Z.to_int z).

Fixpoint join (sep : string) (l : list string) : string :=
  match l with
  | [] => ""
  | [x] => x
  | x :: rest => x ++ sep ++ join sep rest
  end.

(** Indexing [l[i]] of a Python list, for a non-negative index. *)
Definition getitem {A} (l : list A) (i : nat) : result A :=
  match nth_error l i with
  | Some a => Ok a
  | None => Raise (IndexError "list index out of range")
  end.

(** Sequencing of calls that either return or raise. *)
Definition and_then {A B} (r : result A) (k : A -> result B) : result B :=
  match r with
  | Ok a => k a
  | Raise e => Raise e
  end.

Notation "x <~ r ;; k" := (and_then r (fun x => k))
  (at level 61, r at next level, right associativity) : py_scope.

End Py.
Import Py.
Local Open Scope py_scope.

(* ================================================================= *)
(** ** numpy *)

Module Numpy.

(** An n-dimensional float64 array: its shape and its entries in row-major
    order. *)
Record ndarray : Type :=
  { shape : list nat; flat : list float }.

Definition size_of (shp : list nat) : nat := fold_right Nat.mul 1%nat shp.

(** [np.random.RandomState]: the generator is a library object.  What the
    code relies on is that a generator is built from a seed and hands out
    one float after the other. *)
Class Random : Type :=
  { RandomState : Type;
    seed : Z -> RandomState;
    random_sample : RandomState -> float * RandomState }.

Section Rand.
Context {R : Random}.

Fixpoint random_samples (n : nat) (rnd : RandomState) : list float * RandomState :=
  match n with
  | O => ([], rnd)
  | S n' =>
      let '(x, rnd1) := random_sample rnd in
      let '(xs, rnd2) := random_samples n' rnd1 in
      (x :: xs, rnd2)
  end.

(** [rnd.rand(d0, d1, ...)]: an array of the given shape filled with the
    generator's next floats. *)
Definition rand (rnd : RandomState) (shp : list nat) : ndarray * RandomState :=
  let '(xs, rnd') := random_samples (size_of shp) rnd in
  ({| shape := shp; flat := xs |}, rnd').
End Rand.

(** [np.arange(n)] *)
Definition arange (n : nat) : list Z := map Z.of_nat (seq 0 n).

(** [repr] of a one-dimensional integer array.  An array that numpy
    prints on one line reads like [array([100, 120])], the entries
    right-aligned to a common width.  That is the form of an array with at
    least one entry, all entries within the default integer type of every
    platform (32 bits), and a text of at most 75 columns, numpy's line
    width.  Any other array numpy prints in a form of its own (over several
    lines, abridged, or with its dtype, as in [array([], dtype=int64)]);
    that text is the library's. *)
Class Printing : Type :=
  { array_repr : list Z -> string }.

Fixpoint spaces (n : nat) : string :=
  match n with O => "" | S n' => " " ++ spaces n' end.

Definition pad_left (w : nat) (s : string) : string :=
  spaces (w - String.length s) ++ s.

Definition one_line (a : list Z) : string :=
  let cells := map str_Z a in
  let w := fold_right Nat.max 0%nat (map String.length cells) in
  "array([" ++ join ", " (map (pad_left w) cells) ++ "])".

Definition default_int (z : Z) : bool :=
  ((-2147483648 <=? z) && (z <=? 2147483647))%Z.

Definition linewidth : nat := 75.

Definition repr_array {P : Printing} (a : list Z) : string :=
  match a with
  | [] => array_repr a
  | _ :: _ =>
      if forallb default_int a && Nat.leb (String.length (one_line a)) linewidth
      then one_line a
      else array_repr a
  end.

Definition repr_list (reprs : list string) : string :=
  "[" ++ join ", " reprs ++ "]".

(** The order in which numpy sorts labels: integers by value, strings by
    code point, NaN after everything else.  The labels of one coordinate
    are of one kind; across kinds [None] comes first and strings after the
    integers. *)
Definition label_compare (a b : pyval) : comparison :=
  match a, b with
  | PyNone, PyNone => Eq
  | PyNone, _ => Lt
  | _, PyNone => Gt
  | PyNaN, PyNaN => Eq
  | PyNaN, _ => Gt
  | _, PyNaN => Lt
  | PyInt x, PyInt y => Z.compare x y
  | PyInt _, PyStr _ => Lt
  | PyStr _, PyInt _ => Gt
  | PyStr x, PyStr y => String.compare x y
  end.

(** [a == b] on labels; NaN equals nothing. *)
Definition label_eqb (a b : pyval) : bool :=
  match a, b with
  | PyNaN, _ | _, PyNaN => false
  | _, _ => match label_compare a b with Eq => true | _ => false end
  end.

(** [np.isnan] on labels *)
Definition isnan (v : pyval) : bool :=
  match v with PyNaN => true | _ => false end.

(** [x in a] for an array of labels *)
Definition contains (a : list pyval) (x : pyval) : bool :=
  existsb (label_eqb x) a.

Fixpoint insert_unique (x : pyval) (sorted : list pyval) : list pyval :=
  match sorted with
  | [] => [x]
  | y :: rest =>
      match label_compare x y with
      | Lt => x :: sorted
      | Eq => sorted
      | Gt => y :: insert_unique x rest
      end
  end.

(** [np.unique(a)]: the sorted labels of [a], each once (NaN as well). *)
Definition unique (a : list pyval) : list pyval :=
  fold_right insert_unique [] a.

(** The positions at which a boolean mask holds, counted from [i]. *)
Fixpoint nonzero_from (i : nat) (mask : list bool) : list nat :=
  match mask with
  | [] => []
  | b :: mask' =>
      if b then i :: nonzero_from (S i) mask' else nonzero_from (S i) mask'
  end.

Definition nonzero (mask : list bool) : list nat := nonzero_from 0 mask.

End Numpy.
Import Numpy.

(* ================================================================= *)
(** ** Stimulus sets and assemblies (brainio) *)

Module Brainio.

(** A stimulus set is a table with one row per stimulus; the notebook reads
    the columns [image_id] and [object_name]. *)
Record Stimulus : Type :=
  { image_id : string; object_name : string }.

Definition StimulusSet : Type := list Stimulus.

(** [len(stimuli)] and [stimuli[column]] *)
Definition len (stimuli : StimulusSet) : nat := List.length stimuli.
Definition column (f : Stimulus -> string) (stimuli : StimulusSet) : list pyval :=
  map (fun row => PyStr (f row)) stimuli.

(** A coordinate of an assembly: its name, the dimension it labels ([None]
    for a coordinate that labels the assembly as a whole) and one label per
    entry. *)
Record Coord : Type :=
  { coord_name : string; coord_dim : option string; coord_values : list pyval }.

Record DataAssembly : Type :=
  { values : ndarray;
    dims : list string;
    coords : list Coord;
    name : option string;
    attrs_stimulus_set : option StimulusSet }.

(** The size of the array along a named dimension. *)
Fixpoint dim_size (ds : list string) (shp : list nat) (d : string) : option nat :=
  match ds, shp with
  | d' :: ds', n :: shp' => if String.eqb d' d then Some n else dim_size ds' shp' d
  | _, _ => None
  end.

Definition coord_fits (ds : list string) (shp : list nat)
           (c : string * (string * list pyval)) : bool :=
  match dim_size ds shp (fst (snd c)) with
  | Some n => Nat.eqb (List.length (snd (snd c))) n
  | None => false
  end.

(** A label as the index of a dimension gives it back: a missing label,
    [None], is read back as NaN. *)
Definition index_label (v : pyval) : pyval :=
  match v with
  | PyNone => PyNaN
  | _ => v
  end.

(** The number of coordinates that are given for a dimension. *)
Definition coords_given (coords : list (string * (string * list pyval))) (d : string)
  : nat :=
  List.length (filter (fun c => String.eqb (fst (snd c)) d) coords).

(** brainio gathers the coordinates of each dimension into the index of
    that dimension: several coordinates of one dimension become the levels
    of a MultiIndex, from which their labels are read back; a coordinate
    that is alone on its dimension keeps its labels. *)
Definition gather_indexes (coords : list (string * (string * list pyval))) : list Coord :=
  map (fun c => {| coord_name := fst c;
                   coord_dim := Some (fst (snd c));
                   coord_values :=
                     if Nat.ltb 1 (coords_given coords (fst (snd c)))
                     then map index_label (snd (snd c))
                     else snd (snd c) |}) coords.

(** The constructor [DataAssembly(data, coords=..., dims=...)].  As in
    xarray, it refuses dimension names that do not match the rank of the
    data and coordinates whose length differs from the size of their
    dimension. *)
Definition mkDataAssembly (data : ndarray)
           (coords : list (string * (string * list pyval)))
           (dims : list string) : result DataAssembly :=
  if negb (Nat.eqb (List.length dims) (List.length (shape data))) then
    Raise (ValueError "different number of dimensions on data and dims")
  else if negb (forallb (coord_fits dims (shape data)) coords) then
    Raise (ValueError "conflicting sizes for dimension")
  else
    Ok {| values := data;
          dims := dims;
          coords := gather_indexes coords;
          name := None;
          attrs_stimulus_set := None |}.

Definition set_name (a : DataAssembly) (n : string) : DataAssembly :=
  {| values := values a; dims := dims a; coords := coords a;
     name := Some n; attrs_stimulus_set := attrs_stimulus_set a |}.

(** [assembly.stimulus_set] *)
Definition stimulus_set (a : DataAssembly) : result StimulusSet :=
  match attrs_stimulus_set a with
  | Some s => Ok s
  | None => Raise (AttributeError "stimulus_set")
  end.

(** The labels of a coordinate, looked up by name. *)
Definition coord (a : DataAssembly) (n : string) : option (list pyval) :=
  option_map coord_values
    (find (fun c => String.eqb (coord_name c) n) (coords a)).

(** The labels of all coordinates that sit on a dimension. *)
Definition coords_on (a : DataAssembly) (d : string) : list (string * list pyval) :=
  map (fun c => (coord_name c, coord_values c))
      (filter (fun c => match coord_dim c with
                        | Some d' => String.eqb d' d
                        | None => false
                        end) (coords a)).

Fixpoint remove_dim {A} (ds : list string) (xs : list A) (d : string) : list A :=
  match ds, xs with
  | d' :: ds', x :: xs' =>
      if String.eqb d' d then xs' else x :: remove_dim ds' xs' d
  | _, _ => xs
  end.

(** Whether a coordinate labels the dimension [d]. *)
Definition on_dim (d : string) (c : Coord) : bool :=
  match coord_dim c with
  | Some d' => String.eqb d' d
  | None => false
  end.

(** [assembly.squeeze(dim)]: drops a dimension of size one.  The entries
    stay as they are; the coordinates of the dimension, which are levels of
    its index, go with it.  A longer dimension is refused, and on an empty
    one the selection of its entry 0 fails. *)
Definition squeeze (d : string) (a : DataAssembly) : result DataAssembly :=
  match dim_size (dims a) (shape (values a)) d with
  | None => Raise (KeyError d)
  | Some 0%nat => Raise (IndexError "index 0 is out of bounds for axis 0 with size 0")
  | Some 1%nat =>
      Ok {| values := {| shape := remove_dim (dims a) (shape (values a)) d;
                         flat := flat (values a) |};
            dims := remove_dim (dims a) (dims a) d;
            coords := filter (fun c => negb (on_dim d c)) (coords a);
            name := name a;
            attrs_stimulus_set := attrs_stimulus_set a |}
  | Some _ =>
      Raise (ValueError "cannot select a dimension to squeeze out which has length greater than one")
  end.

(** [l[idx]] for a list of positions. *)
Fixpoint pick {A} (l : list A) (idx : list nat) : result (list A) :=
  match idx with
  | [] => Ok []
  | i :: idx' =>
      match nth_error l i, pick l idx' with
      | Some a, Ok rest => Ok (a :: rest)
      | None, _ => Raise (IndexError "index out of bounds")
      | _, Raise e => Raise e
      end
  end.

(** [assembly[name].values]: the labels of a coordinate. *)
Definition getitem_coord (a : DataAssembly) (n : string) : result (list pyval) :=
  match coord a n with
  | Some labels => Ok labels
  | None => Raise (KeyError n)
  end.

(** The shape with the size along one dimension replaced. *)
Fixpoint set_size (ds : list string) (shp : list nat) (d : string) (n : nat) : list nat :=
  match ds, shp with
  | d' :: ds', m :: shp' =>
      if String.eqb d' d then n :: shp' else m :: set_size ds' shp' d n
  | _, _ => shp
  end.

(** The entries of a row-major array at the positions [idx] along one
    dimension. *)
Fixpoint take (ds : list string) (shp : list nat) (d : string) (idx : list nat)
         (data : list float) : list float :=
  match ds, shp with
  | d' :: ds', m :: shp' =>
      let block := size_of shp' in
      if String.eqb d' d then
        flat_map (fun i => firstn block (skipn (i * block) data)) idx
      else
        flat_map (fun o => take ds' shp' d idx (firstn block (skipn (o * block) data)))
                 (seq 0 m)
  | _, _ => data
  end.

Fixpoint pick_labels (d : string) (idx : list nat) (cs : list Coord) : result (list Coord) :=
  match cs with
  | [] => Ok []
  | c :: cs' =>
      let on_d :=
        match coord_dim c with
        | Some d' => String.eqb d' d
        | None => false
        end in
      match (if on_d then pick (coord_values c) idx else Ok (coord_values c)),
            pick_labels d idx cs' with
      | Ok labels, Ok rest =>
          Ok ({| coord_name := coord_name c; coord_dim := coord_dim c;
                 coord_values := labels |} :: rest)
      | Raise e, _ => Raise e
      | _, Raise e => Raise e
      end
  end.

(** [assembly.isel({d: idx})]: the entries at the given positions along a
    dimension, with the labels of that dimension; the attributes stay. *)
Definition isel (d : string) (idx : list nat) (a : DataAssembly) : result DataAssembly :=
  match dim_size (dims a) (shape (values a)) d with
  | None => Raise (ValueError "dimension does not exist")
  | Some n =>
      if negb (forallb (fun i => Nat.ltb i n) idx) then
        Raise (IndexError "index out of bounds")
      else
        match pick_labels d idx (coords a) with
        | Raise e => Raise e
        | Ok cs =>
            Ok {| values :=
                    {| shape := set_size (dims a) (shape (values a)) d (List.length idx);
                       flat := take (dims a) (shape (values a)) d idx (flat (values a)) |};
                  dims := dims a;
                  coords := cs;
                  name := name a;
                  attrs_stimulus_set := attrs_stimulus_set a |}
        end
  end.

(** [assembly[{d: mask}]] and [assembly.loc[{d: mask}]] for a list of
    booleans: the entries along [d] at which the mask holds.  The mask has to
    be as long as the dimension. *)
Definition getitem_mask (d : string) (mask : list bool) (a : DataAssembly)
  : result DataAssembly :=
  match dim_size (dims a) (shape (values a)) d with
  | None => Raise (ValueError "dimension does not exist")
  | Some n =>
      if negb (Nat.eqb (List.length mask) n) then
        Raise (IndexError "boolean index did not match the size of the dimension")
      else isel d (nonzero mask) a
  end.

(** [stimulus_set[stimulus_set['image_id'].isin(image_ids)]] *)
Definition isin_image_id (image_ids : list pyval) (stimuli : StimulusSet) : StimulusSet :=
  filter (fun row => contains image_ids (PyStr (image_id row))) stimuli.

(** The dimension that the coordinate of a name labels. *)
Definition dim_of (a : DataAssembly) (n : string) : option string :=
  match find (fun c => String.eqb (coord_name c) n) (coords a) with
  | Some c => coord_dim c
  | None => None
  end.

(** [assembly.attrs['stimulus_set'] = stimulus_set] *)
Definition set_stimulus_set (a : DataAssembly) (stimuli : StimulusSet) : DataAssembly :=
  {| values := values a; dims := dims a; coords := coords a;
     name := name a; attrs_stimulus_set := Some stimuli |}.

(** An assembly is well formed when its dimensions are named apart, one
    name per axis, its entries fill its shape, and every coordinate of a
    dimension has one label per entry along it. *)
Definition coord_well_formed (ds : list string) (shp : list nat) (c : Coord) : bool :=
  match coord_dim c with
  | Some d =>
      match dim_size ds shp d with
      | Some n => Nat.eqb (List.length (coord_values c)) n
      | None => false
      end
  | None => true
  end.

Fixpoint distinct (names : list string) : bool :=
  match names with
  | [] => true
  | n :: rest => negb (existsb (String.eqb n) rest) && distinct rest
  end.

Definition well_formed (a : DataAssembly) : bool :=
  distinct (dims a)
  && Nat.eqb (List.length (dims a)) (List.length (shape (values a)))
  && Nat.eqb (List.length (flat (values a))) (size_of (shape (values a)))
  && forallb (coord_well_formed (dims a) (shape (values a))) (coords a).

End Brainio.
Import Brainio.

(* ================================================================= *)
(** ** The model interface (brainscore.model_interface) *)

Module BrainModel.

(** Modelled from the spec: the tasks of [BrainModel.Task], whose
    declaration (brainscore.model_interface) is not part of the notebook.
    The notebook names the passive task; any other "requested task" is told
    apart by its name. *)
Inductive Task : Type :=
| passive
| other_task (task_name : string).

Definition Task_eqb (a b : Task) : bool :=
  match a, b with
  | passive, passive => true
  | other_task x, other_task y => String.eqb x y
  | _, _ => false
  end.

Definition str_Task (t : Task) : string :=
  match t with
  | passive => "Task.passive"
  | other_task n => "Task." ++ n
  end.

(** Modelled from the spec: the model interface, declared in
    brainscore.model_interface and not in the notebook: the "capability set
    a candidate must implement", [start_task], [start_recording], [look_at]
    and [visual_degrees].  Each operation runs on the candidate's own state
    and console. *)
Class Interface (C : Type) : Type :=
  { start_task : Task -> M (Console C) unit;
    start_recording : string -> list (list Z) -> M (Console C) unit;
    look_at : StimulusSet -> M (Console C) DataAssembly;
    visual_degrees : M (Console C) Z }.

End BrainModel.

(* ================================================================= *)
(** ** RandomITModel *)

Module RandomITModel.
Import BrainModel.

(** The attributes that [__init__] sets. *)
Record t : Type :=
  { _num_neurons : nat;
    _time_bin_start : option Z;
    _time_bin_end : option Z }.

Definition __init__ : t :=
  {| _num_neurons := 50;
     (* to note which time we are recording *)
     _time_bin_start := None;
     _time_bin_end := None |}.

Section Methods.
Context {R : Numpy.Random} {P : Numpy.Printing}.

(** The text that [start_recording] prints. *)
Definition recording_line (recording_target : string) (time_bins : list (list Z)) : string :=
  "Recording from " ++ recording_target ++ " during "
    ++ repr_list (map repr_array time_bins) ++ " ms".

Definition look_at (stimuli : StimulusSet) : M (Console t) DataAssembly :=
  self <- get_self ;;
  print ("Looking at " ++ str_nat (len stimuli) ++ " stimuli") ;;
  let rnd := Numpy.seed 0 in
  let '(data, _) := rand rnd [len stimuli; _num_neurons self; 1%nat] in
  recordings <- lift (mkDataAssembly data
    [ ("image_id", ("presentation", column image_id stimuli));
      ("object_name", ("presentation", column object_name stimuli));
      ("neuroid_id", ("neuroid", map PyInt (arange (_num_neurons self))));
      ("region", ("neuroid", repeat (PyStr "IT") (_num_neurons self)));
      ("time_bin_start", ("time_bin", [of_option (_time_bin_start self)]));
      ("time_bin_end", ("time_bin", [of_option (_time_bin_end self)])) ]
    ["presentation"; "neuroid"; "time_bin"]) ;;
  let recordings := set_name recordings "random_it_model" in
  ret recordings.

Definition start_task (task : Task) : M (Console t) unit :=
  print ("Starting task " ++ str_Task task) ;;
  if negb (Task_eqb task passive) then
    raise (NotImplementedError "")
  else ret tt.

Definition start_recording (recording_target : string) (time_bins : list (list Z))
  : M (Console t) unit :=
  print ("Recording from " ++ recording_target ++ " during "
         ++ repr_list (map repr_array time_bins) ++ " ms") ;;
  if negb (String.eqb recording_target "IT") then
    raise (NotImplementedError
             ("RandomITModel only supports IT, not " ++ recording_target))
  else if negb (Nat.eqb (List.length time_bins) 1) then
    raise (NotImplementedError
             ("RandomITModel only supports a single start-end time-bin, not "
              ++ repr_list (map repr_array time_bins)))
  else
    time_bins <- lift (getitem time_bins 0) ;;
    start <- lift (getitem time_bins 0) ;;
    stop <- lift (getitem time_bins 1) ;;
    self <- get_self ;;
    set_self {| _num_neurons := _num_neurons self;
                _time_bin_start := Some start;
                _time_bin_end := Some stop |}.

Definition visual_degrees : M (Console t) Z :=
  print "Declaring model to have a visual field size of 8 degrees" ;;
  ret 8%Z.

#[export] Instance RandomITModel_Interface : Interface t :=
  { BrainModel.start_task := start_task;
    BrainModel.start_recording := start_recording;
    BrainModel.look_at := look_at;
    BrainModel.visual_degrees := visual_degrees }.
End Methods.

(** The states of a model object: those that the methods lead to from a
    freshly constructed one, whatever they are called with and whether
    they return or raise. *)
Inductive reachable {R : Numpy.Random} {P : Numpy.Printing} : t -> Prop :=
| reachable_init : reachable __init__
| reachable_look_at o out stimuli :
    reachable o ->
    reachable (obj (exec (look_at stimuli) {| obj := o; stdout := out |}))
| reachable_start_task o out task :
    reachable o ->
    reachable (obj (exec (start_task task) {| obj := o; stdout := out |}))
| reachable_start_recording o out recording_target time_bins :
    reachable o ->
    reachable (obj (exec (start_recording recording_target time_bins)
                         {| obj := o; stdout := out |}))
| reachable_visual_degrees o out :
    reachable o ->
    reachable (obj (exec visual_degrees {| obj := o; stdout := out |})).

End RandomITModel.

(* ================================================================= *)
(** ** Scores (brainscore.metrics) *)

Module Scores.

(** Modelled from the spec: the class [Score] of brainscore.metrics, which
    is not part of the notebook: "a result container with two required
    aggregate values (center, error) and optional attached sub-scores ([raw],
    [ceiling]), each itself a Score"; the innermost [raw] is the matrix of
    the values per split and per channel, as the fifth cell prints it. *)
#[warnings="-register-all"]
Inductive Score : Type :=
| Aggregation (center error : float) (attrs : list (string * Score))
| Matrix (rows : list (list float)).

(** [score.sel(aggregation='center').values] and the same for the error. *)
Definition sel_center (s : Score) : result float :=
  match s with
  | Aggregation c _ _ => Ok c
  | Matrix _ => Raise (KeyError "aggregation")
  end.

Definition sel_error (s : Score) : result float :=
  match s with
  | Aggregation _ e _ => Ok e
  | Matrix _ => Raise (KeyError "aggregation")
  end.

Fixpoint lookup (key : string) (l : list (string * Score)) : option Score :=
  match l with
  | [] => None
  | (k, v) :: rest => if String.eqb k key then Some v else lookup key rest
  end.

(** [score.attrs.get(key)] *)
Definition attr (key : string) (s : Score) : option Score :=
  match s with
  | Aggregation _ _ attrs => lookup key attrs
  | Matrix _ => None
  end.

(** Modelled from the spec: [explained_variance] of
    brainscore.benchmarks._neural_common, which the notebook imports and
    whose code is not part of the notebook.  The benchmark "normalize[s]
    the unceiled score by the ceiling (e.g., via explained-variance
    division) to produce the final score, attaching [raw] and [ceiling] as
    provenance"; the score printed by the last cell fixes the convention:
    the center is the squared ratio of the two centers, the error is the
    error of the unceiled score, and the attributes are [raw] and
    [ceiling]. *)
Definition explained_variance (score ceiling : Score) : result Score :=
  match sel_center score, sel_error score, sel_center ceiling with
  | Ok raw_center, Ok raw_error, Ok ceiling_center =>
      let ratio := (raw_center / ceiling_center)%float in
      Ok (Aggregation (ratio * ratio)%float raw_error
                      [("raw", score); ("ceiling", ceiling)])
  | Raise e, _, _ => Raise e
  | _, Raise e, _ => Raise e
  | _, _, Raise e => Raise e
  end.

(** Two floats are near each other when they differ by at most [tol];
    a NaN is near nothing. *)
Definition near (tol x y : float) : bool :=
  (abs (x - y) <=? tol)%float.

(** A score, normalized by itself, has a center within [tol] of 1. *)
Definition ceils_to_one (tol : float) (s : Score) : bool :=
  match explained_variance s s with
  | Ok (Aggregation center _ _) => near tol center 1
  | _ => false
  end.

(** The floats that are neither zero, nor infinite, nor NaN. *)
Definition finite_nonzero (x : float) : bool :=
  match classify x with
  | PNormal | NNormal | PSubn | NSubn => true
  | _ => false
  end.

End Scores.
Import Scores.

(* ================================================================= *)
(** ** MyBenchmark *)

Module MyBenchmark.
Import BrainModel.

(** The attributes that [__init__] sets: the reference assembly (with its
    stimulus set attached), the similarity metric and the ceiling
    estimator.  The latter two are callable library objects. *)
Record t : Type :=
  { _assembly : DataAssembly;
    _similarity_metric : DataAssembly -> DataAssembly -> result Score;
    _ceiler : DataAssembly -> result Score }.

(** The functions of brainscore.benchmarks that [__call__] uses and whose
    code is not part of the notebook.  Here they take and return values, as
    the metric, the ceiling estimator and the candidate do: this module
    describes the runs in which no callee writes to an object that it is
    handed.  Module [ByReference] below has the same methods with the
    objects in a store that the callees can write to. *)
Class Library : Type :=
  { place_on_screen : StimulusSet -> Z -> Z -> result StimulusSet;
    average_repetition : DataAssembly -> result DataAssembly }.

(** The calls that the benchmark makes to the candidate and to its two
    library objects, in the order in which they are made. *)
Inductive Call : Type :=
| start_task_call (task : Task)
| start_recording_call (recording_target : string) (time_bins : list (list Z))
| visual_degrees_call
| look_at_call (stimuli : StimulusSet)
| similarity_metric_call (source target : DataAssembly)
| ceiler_call (assembly : DataAssembly).

Definition is_look_at (c : Call) : bool :=
  match c with look_at_call _ => true | _ => false end.
Definition is_ceiler (c : Call) : bool :=
  match c with ceiler_call _ => true | _ => false end.

(** The state of a scoring session: the benchmark object, the candidate
    object, the console and the calls made so far. *)
Record Session (C : Type) : Type :=
  { self : t;
    candidate : C;
    console : list string;
    calls : list Call }.
Arguments self {C} _.
Arguments candidate {C} _.
Arguments console {C} _.
Arguments calls {C} _.

#[export] Instance Session_Stdout (C : Type) : Stdout (Session C) :=
  { get_stdout := console;
    set_stdout := fun out s =>
      {| self := self s; candidate := candidate s;
         console := out; calls := calls s |} }.

Definition ceiler_invocations {C} (s : Session C) : nat :=
  List.length (filter is_ceiler (calls s)).
Definition look_at_invocations {C} (s : Session C) : nat :=
  List.length (filter is_look_at (calls s)).

Section Methods.
Context {L : Library} {C : Type} {I : Interface C}.

Definition get_this : M (Session C) t := fun s => (Ok (self s), s).

Definition record (c : Call) : M (Session C) unit :=
  modify (fun s => {| self := self s; candidate := candidate s;
                      console := console s; calls := calls s ++ [c] |}).

(** A method of the candidate, run on the candidate's state and on the
    console of the session. *)
Definition on_candidate {A} (m : M (Console C) A) : M (Session C) A :=
  fun s =>
    let '(r, c) := m {| obj := candidate s; stdout := console s |} in
    (r, {| self := self s; candidate := obj c;
           console := stdout c; calls := calls s |}).

Definition identifier : string := "my-dummy-benchmark".

(** The property [ceiling]. *)
Definition ceiling : M (Session C) Score :=
  this <- get_this ;;
  print "Computing ceiling" ;;
  record (ceiler_call (_assembly this)) ;;
  lift (_ceiler this (_assembly this)).

Definition __call__ : M (Session C) Score :=
  (* (1) reproduce the experiment on the model. *)
  record (start_task_call passive) ;;
  on_candidate (start_task passive) ;;
  record (start_recording_call "IT" [[100; 120]%Z]) ;;
  on_candidate (start_recording "IT" [[100; 120]%Z]) ;;
  this <- get_this ;;
  source_set <- lift (stimulus_set (_assembly this)) ;;
  record visual_degrees_call ;;
  target_visual_degrees <- on_candidate visual_degrees ;;
  stimulus_set <- lift (place_on_screen source_set target_visual_degrees 8) ;;
  record (look_at_call stimulus_set) ;;
  predictions <- on_candidate (look_at stimulus_set) ;;
  (* (2) compute similarity between predictions and measurements *)
  this <- get_this ;;
  assembly <- lift (average_repetition (_assembly this)) ;;
  predictions <- lift (squeeze "time_bin" predictions) ;;
  print "Computing model-match" ;;
  this <- get_this ;;
  record (similarity_metric_call predictions assembly) ;;
  unceiled_score <- lift (_similarity_metric this predictions assembly) ;;
  (* (3) normalize by our estimate of how well the ideal model could do *)
  ceiling <- ceiling ;;
  ceiled_score <- lift (explained_variance unceiled_score ceiling) ;;
  ret ceiled_score.

(** [n] accesses of the property in a row; the value of the last one is
    returned. *)
Fixpoint access_ceiling (n : nat) : M (Session C) (option Score) :=
  match n with
  | O => ret None
  | S n' =>
      c <- ceiling ;;
      match n' with
      | O => ret (Some c)
      | S _ => access_ceiling n'
      end
  end.
End Methods.

(** [keeps P c]: from every state, [c] ends in a state related to it by
    [P], whether it returns or raises. *)
Definition keeps {C A} (P : Session C -> Session C -> Prop) (c : M (Session C) A) : Prop :=
  forall s, P s (snd (c s)).

(** The benchmark object stays what it is. *)
Definition same_self {C} (s s' : Session C) : Prop := self s' = self s.

(** The library that [__init__] builds the benchmark from: the packaged
    assemblies, the metric with its regression and correlation, and the
    ceiling estimator.  Their code is not part of the notebook. *)
Class Brainscore : Type :=
  { get_assembly : string -> result DataAssembly;
    Regression : Type;
    Correlation : Type;
    pls_regression : Regression;
    pearsonr_correlation : Correlation;
    CrossRegressedCorrelation :
      Regression -> Correlation -> nat -> string ->
      DataAssembly -> DataAssembly -> result Score;
    InternalConsistency : DataAssembly -> result Score }.

Definition __init__ {B : Brainscore} : result t :=
  (* both StimulusSets as well as assemblies are packaged through brainio *)
  assembly <~ get_assembly "dicarlo.MajajHong2015.temporal.public" ;;
  starts <~ getitem_coord assembly "time_bin_start" ;;
  assembly <~ getitem_mask "time_bin"
                (map (fun start => label_eqb start (PyInt 100)) starts) assembly ;;
  (* also, let's only look at a subset of the images *)
  labels <~ getitem_coord assembly "image_id" ;;
  let image_ids := firstn 1000 (unique labels) in
  labels <~ getitem_coord assembly "image_id" ;;
  assembly <~ getitem_mask "presentation"
                (map (fun image_id => contains image_ids image_id) labels) assembly ;;
  stimulus_set <~ stimulus_set assembly ;;
  let stimulus_set := isin_image_id image_ids stimulus_set in
  let assembly := set_stimulus_set assembly stimulus_set in
  (* reduce to presentation x neuroid for simplicity (we only have one time_bin) *)
  assembly <~ squeeze "time_bin" assembly ;;
  Ok {| _assembly := assembly;
        _similarity_metric :=
          CrossRegressedCorrelation pls_regression pearsonr_correlation
                                    3 "object_name";
        _ceiler := InternalConsistency |}.

(** The calls of a run of [__call__] that gets through, in their order. *)
Definition protocol (this : t) (stimuli : StimulusSet) (source target : DataAssembly)
  : list Call :=
  [ start_task_call passive;
    start_recording_call "IT" [[100; 120]%Z];
    visual_degrees_call;
    look_at_call stimuli;
    similarity_metric_call source target;
    ceiler_call (_assembly this) ].

End MyBenchmark.

(* ================================================================= *)
(** ** MyBenchmark on shared objects *)

Module ByReference.

(** In Python an assembly or a stimulus set is an object, and what the
    benchmark stores, passes to a callee or gets back from one is a
    reference to it: a callee that is handed the stored assembly can write
    to the very object that the benchmark holds.  This module has
    [MyBenchmark.__call__] and [MyBenchmark.ceiling] once more, line by
    line, with the objects in a store and the callees free to write to
    it. *)

Definition ref : Type := nat.

(** An assembly object holds its array with the dimensions, coordinates and
    name, and in its attributes the reference to its stimulus set (the
    field [attrs_stimulus_set] of the array is not read). *)
Inductive object : Type :=
| assembly_object (array : DataAssembly) (stimulus_set : option ref)
| stimulus_set_object (stimuli : StimulusSet).

(** The store: the objects that exist, a reference being a position.  A
    reference at no object of the store is like one at an object without
    the attribute that is asked for: what is tried on it raises
    [AttributeError]. *)
Definition Store : Type := list object.


(** A new object; no reference of before refers to it. *)
Definition alloc (o : object) : M Store ref :=
  fun st => (Ok (List.length st), st ++ [o]).

(** [assembly.stimulus_set]: the stimulus set that the attributes of the
    assembly refer to, itself and not a copy. *)
Definition stimulus_set (assembly : ref) : M Store ref :=
  fun st =>
    match nth_error st assembly with
    | Some (assembly_object _ (Some stimuli)) => (Ok stimuli, st)
    | _ => (Raise (AttributeError "stimulus_set"), st)
    end.

(** [assembly.squeeze(d)]: a new assembly object, which shares the
    attributes of the one it is made from. *)
Definition squeeze (d : string) (assembly : ref) : M Store ref :=
  fun st =>
    match nth_error st assembly with
    | Some (assembly_object array attrs) =>
        match Brainio.squeeze d array with
        | Ok squeezed => alloc (assembly_object squeezed attrs) st
        | Raise e => (Raise e, st)
        end
    | _ => (Raise (AttributeError "squeeze"), st)
    end.

(** The benchmark object: the reference to the stored assembly and the two
    callable library objects, which run on the store. *)
Record t : Type :=
  { _assembly : ref;
    _similarity_metric : ref -> ref -> M Store Score;
    _ceiler : ref -> M Store Score }.

Class Library : Type :=
  { place_on_screen : ref -> Z -> Z -> M Store ref;
    average_repetition : ref -> M Store ref }.

(** A candidate: its methods run on its own state, the console and the
    store. *)
Class Interface (C : Type) : Type :=
  { start_task : BrainModel.Task -> M (Console C * Store) unit;
    start_recording : string -> list (list Z) -> M (Console C * Store) unit;
    look_at : ref -> M (Console C * Store) ref;
    visual_degrees : M (Console C * Store) Z }.

(** The calls that the benchmark makes, with the objects it hands over. *)
Inductive Call : Type :=
| start_task_call (task : BrainModel.Task)
| start_recording_call (recording_target : string) (time_bins : list (list Z))
| visual_degrees_call
| place_on_screen_call (stimuli : ref)
| look_at_call (stimuli : ref)
| average_repetition_call (assembly : ref)
| similarity_metric_call (source target : ref)
| ceiler_call (assembly : ref).



Record Session (C : Type) : Type :=
  { self : t;
    candidate : C;
    console : list string;
    store : Store;
    calls : list Call }.
Arguments self {C} _.
Arguments candidate {C} _.
Arguments console {C} _.
Arguments store {C} _.
Arguments calls {C} _.

#[export] Instance Session_Stdout (C : Type) : Stdout (Session C) :=
  { get_stdout := console;
    set_stdout := fun out s =>
      {| self := self s; candidate := candidate s;
         console := out; store := store s; calls := calls s |} }.

Section Methods.
Context {L : Library} {C : Type} {I : Interface C}.

Definition get_this : M (Session C) t := fun s => (Ok (self s), s).

Definition record (c : Call) : M (Session C) unit :=
  modify (fun s => {| self := self s; candidate := candidate s;
                      console := console s; store := store s;
                      calls := calls s ++ [c] |}).

(** A method of the candidate, run on the candidate's state, the console
    and the store of the session. *)
Definition on_candidate {A} (m : M (Console C * Store) A) : M (Session C) A :=
  fun s =>
    let '(r, (c, st)) := m ({| obj := candidate s; stdout := console s |}, store s) in
    (r, {| self := self s; candidate := obj c;
           console := stdout c; store := st; calls := calls s |}).

(** A library call or an operation on an object, run on the store. *)
Definition on_store {A} (c : M Store A) : M (Session C) A :=
  fun s =>
    let '(r, st) := c (store s) in
    (r, {| self := self s; candidate := candidate s;
           console := console s; store := st; calls := calls s |}).

(** The property [ceiling]. *)
Definition ceiling : M (Session C) Score :=
  this <- get_this ;;
  print "Computing ceiling" ;;
  record (ceiler_call (_assembly this)) ;;
  on_store (_ceiler this (_assembly this)).

Definition __call__ : M (Session C) Score :=
  (* (1) reproduce the experiment on the model. *)
  record (start_task_call BrainModel.passive) ;;
  on_candidate (start_task BrainModel.passive) ;;
  record (start_recording_call "IT" [[100; 120]%Z]) ;;
  on_candidate (start_recording "IT" [[100; 120]%Z]) ;;
  this <- get_this ;;
  source_set <- on_store (stimulus_set (_assembly this)) ;;
  record visual_degrees_call ;;
  target_visual_degrees <- on_candidate visual_degrees ;;
  record (place_on_screen_call source_set) ;;
  stimulus_set <- on_store (place_on_screen source_set target_visual_degrees 8) ;;
  record (look_at_call stimulus_set) ;;
  predictions <- on_candidate (look_at stimulus_set) ;;
  (* (2) compute similarity between predictions and measurements *)
  this <- get_this ;;
  record (average_repetition_call (_assembly this)) ;;
  assembly <- on_store (average_repetition (_assembly this)) ;;
  predictions <- on_store (squeeze "time_bin" predictions) ;;
  print "Computing model-match" ;;
  this <- get_this ;;
  record (similarity_metric_call predictions assembly) ;;
  unceiled_score <- on_store (_similarity_metric this predictions assembly) ;;
  (* (3) normalize by our estimate of how well the ideal model could do *)
  ceiling <- ceiling ;;
  ceiled_score <- lift (explained_variance unceiled_score ceiling) ;;
  ret ceiled_score.
End Methods.



(** *** Collaborators that work on values

    A callee that reads the objects it is handed and returns a new object:
    what the functions of [MyBenchmark.Library], a benchmark of
    [MyBenchmark.t] and a candidate of [BrainModel.Interface] are when
    they run on a store. *)

Definition load_stimulus_set (r : ref) : M Store StimulusSet :=
  fun st =>
    match nth_error st r with
    | Some (stimulus_set_object stimuli) => (Ok stimuli, st)
    | _ => (Raise (AttributeError "image_id"), st)
    end.

(** The assembly at [r] as a value, with the stimulus set that it refers
    to. *)
Definition load_assembly (r : ref) : M Store DataAssembly :=
  fun st =>
    match nth_error st r with
    | Some (assembly_object array None) =>
        (Ok {| values := values array; dims := dims array; coords := coords array;
               name := name array; attrs_stimulus_set := None |}, st)
    | Some (assembly_object array (Some set)) =>
        match nth_error st set with
        | Some (stimulus_set_object stimuli) => (Ok (set_stimulus_set array stimuli), st)
        | _ => (Raise (AttributeError "stimulus_set"), st)
        end
    | _ => (Raise (AttributeError "dims"), st)
    end.

(** A new assembly object for a value, with a new stimulus set object when
    the value has one. *)
Definition new_assembly (a : DataAssembly) : M Store ref :=
  match attrs_stimulus_set a with
  | None => alloc (assembly_object a None)
  | Some stimuli =>
      set <- alloc (stimulus_set_object stimuli) ;;
      alloc (assembly_object a (Some set))
  end.

Definition by_value_library (L : MyBenchmark.Library) : Library :=
  {| place_on_screen := fun stimuli target source =>
       stimuli <- load_stimulus_set stimuli ;;
       placed <- lift (MyBenchmark.place_on_screen stimuli target source) ;;
       alloc (stimulus_set_object placed);
     average_repetition := fun assembly =>
       assembly <- load_assembly assembly ;;
       averaged <- lift (MyBenchmark.average_repetition assembly) ;;
       new_assembly averaged |}.

Definition by_value (this : MyBenchmark.t) (assembly : ref) : t :=
  {| _assembly := assembly;
     _similarity_metric := fun source target =>
       source <- load_assembly source ;;
       target <- load_assembly target ;;
       lift (MyBenchmark._similarity_metric this source target);
     _ceiler := fun assembly =>
       assembly <- load_assembly assembly ;;
       lift (MyBenchmark._ceiler this assembly) |}.

(** A method that touches the candidate and the console only. *)
Definition on_console {C A} (m : M (Console C) A) : M (Console C * Store) A :=
  fun cs => let '(r, c) := m (fst cs) in (r, (c, snd cs)).

(** An operation on the store, within a method of the candidate. *)
Definition in_store {C A} (c : M Store A) : M (Console C * Store) A :=
  fun cs => let '(r, st) := c (snd cs) in (r, (fst cs, st)).

Definition by_value_interface {C} (I : BrainModel.Interface C) : Interface C :=
  {| start_task := fun task => on_console (BrainModel.start_task task);
     start_recording := fun recording_target time_bins =>
       on_console (BrainModel.start_recording recording_target time_bins);
     look_at := fun stimuli =>
       stimuli <- in_store (load_stimulus_set stimuli) ;;
       recordings <- on_console (BrainModel.look_at stimuli) ;;
       in_store (new_assembly recordings);
     visual_degrees := on_console BrainModel.visual_degrees |}.

(** *** Predicates on runs *)

(** A computation of a session keeps an invariant of the session. *)
Definition preserves {C A} (Inv : Session C -> Prop) (c : M (Session C) A) : Prop :=
  forall s, Inv s -> Inv (snd (c s)).


(** The assembly at [r], read as a value, is [a]. *)
Definition value_at (st : Store) (r : ref) (a : DataAssembly) : Prop :=
  load_assembly r st = (Ok a, st).

End ByReference.

(* ================================================================= *)
(** ** Concrete collaborators, to run the embedding *)

Module Demo.

(** A linear congruential generator in the place of numpy's generator. *)
#[export] Instance lcg : Numpy.Random :=
  { RandomState := Z;
    seed := fun z => z;
    random_sample := fun st =>
      let st' := ((st * 1103515245 + 12345) mod 2147483648)%Z in
      ((PrimFloat.of_uint63 (Uint63.of_Z st') / 2147483648)%float, st') }.

(** A printer that puts every array on one line. *)
#[export] Instance printing : Numpy.Printing :=
  { array_repr := one_line }.

Definition two_stimuli : StimulusSet :=
  [ {| image_id := "img0"; object_name := "car" |};
    {| image_id := "img1"; object_name := "face" |} ].

(** A reference assembly of two presentations of each stimulus on three
    neuroids, with its stimulus set attached. *)
Definition reference : DataAssembly :=
  {| values := {| shape := [4; 3]%nat;
                  flat := [ 0.5; 0.25; 0.125; 1; 0.75; 0.5;
                            0.5; 0.5; 0.25; 1; 1; 0.75 ]%float |};
     dims := ["presentation"; "neuroid"];
     coords :=
       [ {| coord_name := "image_id"; coord_dim := Some "presentation";
            coord_values := [PyStr "img0"; PyStr "img1"; PyStr "img0"; PyStr "img1"] |};
         {| coord_name := "repetition"; coord_dim := Some "presentation";
            coord_values := [PyInt 0; PyInt 0; PyInt 1; PyInt 1] |};
         {| coord_name := "neuroid_id"; coord_dim := Some "neuroid";
            coord_values := [PyStr "a"; PyStr "b"; PyStr "c"] |} ];
     name := Some "reference";
     attrs_stimulus_set := Some two_stimuli |}.

(** The scores that the last cell of the notebook printed. *)
#[warnings="-inexact-float"]
Definition printed_raw : Score := Aggregation 0.006589 0.013101 [].
#[warnings="-inexact-float"]
Definition printed_ceiling : Score := Aggregation 0.670578 0.002014 [].

#[export] Instance library : MyBenchmark.Library :=
  { MyBenchmark.place_on_screen := fun stimuli _ _ => Ok stimuli;
    MyBenchmark.average_repetition := fun assembly => Ok assembly }.

Definition benchmark : MyBenchmark.t :=
  {| MyBenchmark._assembly := reference;
     MyBenchmark._similarity_metric := fun _ _ => Ok printed_raw;
     MyBenchmark._ceiler := fun _ => Ok printed_ceiling |}.

Definition session : MyBenchmark.Session RandomITModel.t :=
  {| MyBenchmark.self := benchmark;
     MyBenchmark.candidate := RandomITModel.__init__;
     MyBenchmark.console := [];
     MyBenchmark.calls := [] |}.

(** The session of the notebook's last cell, as far as the output goes:
    a benchmark over 1000 stimuli and a fresh [RandomITModel]. *)
Definition thousand_stimuli : StimulusSet :=
  map (fun i => {| image_id := "image" ++ str_nat i; object_name := "object" |})
      (seq 0 1000).

Definition notebook_session : MyBenchmark.Session RandomITModel.t :=
  {| MyBenchmark.self :=
       {| MyBenchmark._assembly :=
            {| values := values reference; dims := dims reference;
               coords := coords reference; name := name reference;
               attrs_stimulus_set := Some thousand_stimuli |};
          MyBenchmark._similarity_metric := fun _ _ => Ok printed_raw;
          MyBenchmark._ceiler := fun _ => Ok printed_ceiling |};
     MyBenchmark.candidate := RandomITModel.__init__;
     MyBenchmark.console := [];
     MyBenchmark.calls := [] |}.

(** The stages that the candidate of [session] goes through when it is
    scored, and what it predicts. *)
Definition started : Console RandomITModel.t :=
  Eval vm_compute in
    snd (RandomITModel.start_task BrainModel.passive
           {| obj := RandomITModel.__init__; stdout := [] |}).

Definition recording : Console RandomITModel.t :=
  Eval vm_compute in
    snd (RandomITModel.start_recording "IT" [[100; 120]%Z] started).

Definition declared : Console RandomITModel.t :=
  Eval vm_compute in snd (RandomITModel.visual_degrees recording).

Definition looked : Console RandomITModel.t :=
  Eval vm_compute in snd (RandomITModel.look_at two_stimuli declared).

Definition predictions : DataAssembly :=
  Eval vm_compute in
    match fst (RandomITModel.look_at two_stimuli declared) with
    | Ok recordings => recordings
    | Raise _ => reference
    end.

Definition squeezed : DataAssembly :=
  Eval vm_compute in
    match squeeze "time_bin" predictions with
    | Ok assembly => assembly
    | Raise _ => reference
    end.

Definition ceiled : Score :=
  Eval vm_compute in
    match explained_variance printed_raw printed_ceiling with
    | Ok score => score
    | Raise _ => printed_raw
    end.

(** A candidate that implements no task at all. *)
Definition taskless : BrainModel.Interface unit :=
  {| BrainModel.start_task := fun _ => raise (NotImplementedError "no task");
     BrainModel.start_recording := fun _ _ => ret tt;
     BrainModel.look_at := fun _ => raise (NotImplementedError "no recording");
     BrainModel.visual_degrees := ret 8%Z |}.

Definition taskless_session : MyBenchmark.Session unit :=
  {| MyBenchmark.self := benchmark;
     MyBenchmark.candidate := tt;
     MyBenchmark.console := [];
     MyBenchmark.calls := [] |}.

(** A packaged assembly of two presentations of each of two images on two
    neuroids in two time bins, with a stimulus set of three images, and the
    library that hands it out. *)
Definition packaged : DataAssembly :=
  {| values := {| shape := [4; 2; 2]%nat;
                  flat := [ 1; 2;  3; 4;   5; 6;  7; 8;
                            9; 10;  11; 12;   13; 14;  15; 16 ]%float |};
     dims := ["presentation"; "neuroid"; "time_bin"];
     coords :=
       [ {| coord_name := "image_id"; coord_dim := Some "presentation";
            coord_values := [PyStr "img1"; PyStr "img0"; PyStr "img1"; PyStr "img0"] |};
         {| coord_name := "repetition"; coord_dim := Some "presentation";
            coord_values := [PyInt 0; PyInt 0; PyInt 1; PyInt 1] |};
         {| coord_name := "neuroid_id"; coord_dim := Some "neuroid";
            coord_values := [PyStr "a"; PyStr "b"] |};
         {| coord_name := "time_bin_start"; coord_dim := Some "time_bin";
            coord_values := [PyInt 70; PyInt 100] |};
         {| coord_name := "time_bin_end"; coord_dim := Some "time_bin";
            coord_values := [PyInt 90; PyInt 120] |} ];
     name := Some "dicarlo.MajajHong2015.temporal.public";
     attrs_stimulus_set :=
       Some [ {| image_id := "img0"; object_name := "car" |};
              {| image_id := "img2"; object_name := "dog" |};
              {| image_id := "img1"; object_name := "face" |} ] |}.

#[export] Instance brainscore : MyBenchmark.Brainscore :=
  { MyBenchmark.get_assembly := fun identifier =>
      if String.eqb identifier "dicarlo.MajajHong2015.temporal.public"
      then Ok packaged else Raise (KeyError identifier);
    MyBenchmark.Regression := unit;
    MyBenchmark.Correlation := unit;
    MyBenchmark.pls_regression := tt;
    MyBenchmark.pearsonr_correlation := tt;
    MyBenchmark.CrossRegressedCorrelation := fun _ _ _ _ _ _ => Ok printed_raw;
    MyBenchmark.InternalConsistency := fun _ => Ok printed_ceiling }.

(** The same library with another assembly under the benchmark's name. *)
Definition brainscore_with (assembly : DataAssembly) : MyBenchmark.Brainscore :=
  {| MyBenchmark.get_assembly := fun _ => Ok assembly;
     MyBenchmark.Regression := unit;
     MyBenchmark.Correlation := unit;
     MyBenchmark.pls_regression := tt;
     MyBenchmark.pearsonr_correlation := tt;
     MyBenchmark.CrossRegressedCorrelation := fun _ _ _ _ _ _ => Ok printed_raw;
     MyBenchmark.InternalConsistency := fun _ => Ok printed_ceiling |}.

(** The benchmark that the constructor builds from [packaged]. *)
Definition built : MyBenchmark.t :=
  Eval vm_compute in
    match MyBenchmark.__init__ with
    | Ok b => b
    | Raise _ => benchmark
    end.

(** The packaged assembly without its stimulus set. *)
Definition packaged_bare : DataAssembly :=
  {| values := values packaged; dims := dims packaged; coords := coords packaged;
     name := name packaged; attrs_stimulus_set := None |}.

(** A session over a benchmark whose metric fails. *)
Definition failing_metric_session : MyBenchmark.Session RandomITModel.t :=
  {| MyBenchmark.self :=
       {| MyBenchmark._assembly := reference;
          MyBenchmark._similarity_metric := fun _ _ => Raise (ValueError "no fit");
          MyBenchmark._ceiler := fun _ => Ok printed_ceiling |};
     MyBenchmark.candidate := RandomITModel.__init__;
     MyBenchmark.console := [];
     MyBenchmark.calls := [] |}.

(** The benchmark of [session] with its data as objects: the stimulus set
    at reference 0 and the assembly, which refers to it, at reference 1. *)
Definition shared_store : ByReference.Store :=
  [ ByReference.stimulus_set_object two_stimuli;
    ByReference.assembly_object reference (Some 0%nat) ].

#[export] Instance shared_library : ByReference.Library :=
  ByReference.by_value_library library.

#[export] Instance shared_model : ByReference.Interface RandomITModel.t :=
  ByReference.by_value_interface RandomITModel.RandomITModel_Interface.


(** An estimator that writes to the assembly it is handed: it names it. *)
Definition naming_ceiler (assembly : ByReference.ref) : M ByReference.Store Score :=
  fun st =>
    match nth_error st assembly with
    | Some (ByReference.assembly_object array attrs) =>
        (Ok printed_ceiling,
         firstn assembly st
           ++ ByReference.assembly_object (set_name array "ceiled") attrs
           :: skipn (S assembly) st)
    | _ => (Raise (AttributeError "name"), st)
    end.

Definition naming_session : ByReference.Session RandomITModel.t :=
  {| ByReference.self :=
       {| ByReference._assembly := 1;
          ByReference._similarity_metric :=
            ByReference._similarity_metric (ByReference.by_value benchmark 1);
          ByReference._ceiler := naming_ceiler |};
     ByReference.candidate := RandomITModel.__init__;
     ByReference.console := [];
     ByReference.store := shared_store;
     ByReference.calls := [] |}.

End Demo.

(* ================================================================= *)
(** * Properties *)

(** ** RandomITModel *)

Section RandomITModel_properties.
Import BrainModel RandomITModel.
Context {R : Numpy.Random} {P : Numpy.Printing}.

Lemma random_samples_length (n : nat) (rnd : RandomState) :
  List.length (fst (random_samples n rnd)) = n.
Proof.
  revert rnd. induction n as [|n IH]; intros rnd; simpl; [reflexivity|].
  destruct (random_sample rnd) as [x rnd1].
  specialize (IH rnd1). destruct (random_samples n rnd1) as [xs rnd2].
  simpl in *. now rewrite IH.
Qed.

Lemma rand_shape (rnd : RandomState) (shp : list nat) :
  shape (fst (rand rnd shp)) = shp
  /\ List.length (flat (fst (rand rnd shp))) = size_of shp.
Proof.
  unfold rand. pose proof (random_samples_length (size_of shp) rnd) as H.
  destruct (random_samples (size_of shp) rnd) as [xs rnd']. simpl in *. auto.
Qed.

(** Labels that are there are read back from an index as they went in. *)
Lemma index_label_column (f : Stimulus -> string) (stimuli : StimulusSet) :
  map index_label (column f stimuli) = column f stimuli.
Proof. unfold column. rewrite map_map. reflexivity. Qed.

Lemma index_label_PyInt (l : list Z) : map index_label (map PyInt l) = map PyInt l.
Proof. rewrite map_map. reflexivity. Qed.

Lemma index_label_repeat (s : string) (n : nat) :
  map index_label (repeat (PyStr s) n) = repeat (PyStr s) n.
Proof. induction n as [|n IH]; simpl; [reflexivity | now rewrite IH]. Qed.

(** The assembly that [look_at] builds for a model in state [o]. *)
Lemma look_at_run (o : t) (out : list string) (stimuli : StimulusSet) :
  look_at stimuli {| obj := o; stdout := out |}
  = (Ok {| values := fst (rand (Numpy.seed 0) [len stimuli; _num_neurons o; 1%nat]);
           dims := ["presentation"; "neuroid"; "time_bin"];
           coords :=
             [ {| coord_name := "image_id"; coord_dim := Some "presentation";
                  coord_values := column image_id stimuli |};
               {| coord_name := "object_name"; coord_dim := Some "presentation";
                  coord_values := column object_name stimuli |};
               {| coord_name := "neuroid_id"; coord_dim := Some "neuroid";
                  coord_values := map PyInt (arange (_num_neurons o)) |};
               {| coord_name := "region"; coord_dim := Some "neuroid";
                  coord_values := repeat (PyStr "IT") (_num_neurons o) |};
               {| coord_name := "time_bin_start"; coord_dim := Some "time_bin";
                  coord_values := [index_label (of_option (_time_bin_start o))] |};
               {| coord_name := "time_bin_end"; coord_dim := Some "time_bin";
                  coord_values := [index_label (of_option (_time_bin_end o))] |} ];
           name := Some "random_it_model";
           attrs_stimulus_set := None |},
     {| obj := o;
        stdout := out ++ [("Looking at " ++ str_nat (len stimuli) ++ " stimuli")%string] |}).
Proof.
  unfold look_at, bind, get_self, print, modify, lift, ret. simpl.
  destruct (rand_shape (Numpy.seed 0) [len stimuli; _num_neurons o; 1%nat]) as [Hs _].
  destruct (rand (Numpy.seed 0) [len stimuli; _num_neurons o; 1%nat]) as [data rnd'].
  simpl in Hs |- *.
  unfold mkDataAssembly. rewrite Hs. simpl.
  unfold coord_fits, len. simpl.
  unfold column, arange.
  rewrite !length_map, length_seq, repeat_length, !Nat.eqb_refl. simpl.
  unfold gather_indexes, coords_given. simpl.
  fold (column image_id stimuli). fold (column object_name stimuli).
  rewrite !index_label_column, index_label_PyInt, index_label_repeat.
  reflexivity.
Qed.

Lemma start_task_run (task : Task) (o : t) (out : list string) :
  start_task task {| obj := o; stdout := out |}
  = (if Task_eqb task passive then Ok tt else Raise (NotImplementedError ""),
     {| obj := o; stdout := out ++ [("Starting task " ++ str_Task task)%string] |}).
Proof.
  unfold start_task, bind, print, modify, raise, ret. simpl.
  destruct (Task_eqb task passive); reflexivity.
Qed.

Lemma visual_degrees_run (o : t) (out : list string) :
  visual_degrees {| obj := o; stdout := out |}
  = (Ok 8%Z,
     {| obj := o;
        stdout := out ++ ["Declaring model to have a visual field size of 8 degrees"] |}).
Proof. reflexivity. Qed.

Lemma start_recording_not_IT (recording_target : string) (time_bins : list (list Z))
      (o : t) (out : list string) :
  recording_target <> "IT" ->
  start_recording recording_target time_bins {| obj := o; stdout := out |}
  = (Raise (NotImplementedError
              ("RandomITModel only supports IT, not " ++ recording_target)),
     {| obj := o; stdout := out ++ [recording_line recording_target time_bins] |}).
Proof.
  intros H. apply String.eqb_neq in H.
  unfold start_recording, bind, print, modify, raise. simpl.
  rewrite H. reflexivity.
Qed.

Lemma start_recording_not_one_bin (time_bins : list (list Z)) (o : t) (out : list string) :
  List.length time_bins <> 1%nat ->
  start_recording "IT" time_bins {| obj := o; stdout := out |}
  = (Raise (NotImplementedError
              ("RandomITModel only supports a single start-end time-bin, not "
                 ++ repr_list (map repr_array time_bins))),
     {| obj := o; stdout := out ++ [recording_line "IT" time_bins] |}).
Proof.
  intros H. apply Nat.eqb_neq in H.
  unfold start_recording, bind, print, modify, raise. simpl.
  rewrite H. reflexivity.
Qed.

Lemma start_recording_one_bin (start stop : Z) (more : list Z) (o : t) (out : list string) :
  start_recording "IT" [start :: stop :: more] {| obj := o; stdout := out |}
  = (Ok tt,
     {| obj := {| _num_neurons := _num_neurons o;
                  _time_bin_start := Some start;
                  _time_bin_end := Some stop |};
        stdout := out ++ [recording_line "IT" [start :: stop :: more]] |}).
Proof. reflexivity. Qed.

(** A bin that is not a start-end pair is met by the indexing error of
    the last line of the method, before anything is assigned. *)
Lemma start_recording_short_bin (bin : list Z) (o : t) (out : list string) :
  (List.length bin < 2)%nat ->
  start_recording "IT" [bin] {| obj := o; stdout := out |}
  = (Raise (IndexError "list index out of range"),
     {| obj := o; stdout := out ++ [recording_line "IT" [bin]] |}).
Proof.
  intros Hlen. destruct bin as [|start [|stop more]]; simpl in Hlen; try lia; reflexivity.
Qed.

(** When [start_recording] raises, for bins of any length. *)
Lemma start_recording_raises_exactly
      (recording_target : string) (time_bins : list (list Z)) (o : t) (out : list string) :
  is_raise (outcome (start_recording recording_target time_bins)
                    {| obj := o; stdout := out |}) = true
  <-> (recording_target <> "IT"
       \/ List.length time_bins <> 1%nat
       \/ exists bin, time_bins = [bin] /\ (List.length bin < 2)%nat).
Proof.
  unfold outcome.
  destruct (String.eqb_spec recording_target "IT") as [->|Hne].
  - destruct time_bins as [|bin [|bin' rest]].
    + rewrite start_recording_not_one_bin by discriminate. simpl.
      split; [intros _; right; left; discriminate | reflexivity].
    + destruct bin as [|start [|stop more]].
      * rewrite start_recording_short_bin by (simpl; lia). simpl. split; [|reflexivity].
        intros _. right. right. exists []. simpl. split; [reflexivity | lia].
      * rewrite start_recording_short_bin by (simpl; lia). simpl. split; [|reflexivity].
        intros _. right. right. exists [start]. simpl. split; [reflexivity | lia].
      * rewrite start_recording_one_bin. simpl. split; [discriminate|].
        intros [H|[H|[bin [Hbin Hlen]]]]; try congruence.
        inversion Hbin; subst. simpl in Hlen. lia.
    + rewrite start_recording_not_one_bin by discriminate. simpl.
      split; [intros _; right; left; discriminate | reflexivity].
  - rewrite start_recording_not_IT by assumption. simpl.
    split; [intros _; left; assumption | reflexivity].
Qed.

(** When [start_recording] raises, the model is as it was. *)
Lemma start_recording_raise_keeps
      (recording_target : string) (time_bins : list (list Z)) (o : t) (out : list string) :
  is_raise (outcome (start_recording recording_target time_bins)
                    {| obj := o; stdout := out |}) = true ->
  obj (exec (start_recording recording_target time_bins) {| obj := o; stdout := out |}) = o.
Proof.
  unfold outcome, exec.
  destruct (String.eqb_spec recording_target "IT") as [->|Hne];
    [|now rewrite start_recording_not_IT].
  destruct time_bins as [|bin [|bin' rest]];
    try (now rewrite start_recording_not_one_bin).
  destruct bin as [|start [|stop more]];
    try (now rewrite start_recording_short_bin by (simpl; lia)).
  rewrite start_recording_one_bin. discriminate.
Qed.

(** No method changes the number of neurons. *)
Lemma reachable_num_neurons (o : t) : reachable o -> _num_neurons o = 50%nat.
Proof.
  induction 1 as [|o out stimuli _ IH|o out task _ IH
                  |o out target bins _ IH|o out _ IH].
  - reflexivity.
  - unfold exec. now rewrite look_at_run.
  - unfold exec. now rewrite start_task_run.
  - destruct (String.eqb_spec target "IT") as [->|Hne].
    + destruct bins as [|bin [|bin' rest]].
      * unfold exec. now rewrite start_recording_not_one_bin.
      * destruct bin as [|start [|stop more]]; exact IH.
      * unfold exec. now rewrite start_recording_not_one_bin.
    + unfold exec. now rewrite start_recording_not_IT.
  - exact IH.
Qed.

(** C4, as the code has it: [start_recording] raises if and only if the
    target is not "IT", or there is not exactly one bin, or the one bin has
    fewer than two entries.  In the first two cases, and only in them, what
    it raises is a [NotImplementedError]; in the third it is the
    [IndexError] of reading the entries of the bin.  Whenever it raises,
    the model is as it was; called with "IT" and one bin of at least two
    entries it returns and has set the recorded time window to the first
    two entries, the start and the end of the bin. *)
Theorem start_recording_raises_iff_unsupported
        (recording_target : string) (time_bins : list (list Z))
        (o : t) (out : list string) :
  let run := start_recording recording_target time_bins {| obj := o; stdout := out |} in
  (is_raise (fst run) = true
   <-> (recording_target <> "IT"
        \/ List.length time_bins <> 1%nat
        \/ exists bin, time_bins = [bin] /\ (List.length bin < 2)%nat))
  /\ ((exists msg, fst run = Raise (NotImplementedError msg))
      <-> (recording_target <> "IT" \/ List.length time_bins <> 1%nat))
  /\ (forall bin,
        recording_target = "IT" -> time_bins = [bin] -> (List.length bin < 2)%nat ->
        fst run = Raise (IndexError "list index out of range"))
  /\ (is_raise (fst run) = true -> obj (snd run) = o)
  /\ (forall start stop more,
        recording_target = "IT" -> time_bins = [start :: stop :: more] ->
        fst run = Ok tt
        /\ obj (snd run) = {| _num_neurons := _num_neurons o;
                              _time_bin_start := Some start;
                              _time_bin_end := Some stop |}).
Proof.
  intros run. subst run.
  split; [apply start_recording_raises_exactly|].
  split; [|split; [|split; [apply start_recording_raise_keeps|]]].
  - destruct (String.eqb_spec recording_target "IT") as [->|Hne].
    + destruct time_bins as [|bin [|bin' rest]].
      * rewrite start_recording_not_one_bin by discriminate. simpl.
        split; [intros _; right; discriminate | intros _; eexists; reflexivity].
      * split; [|intros [H|H]; exfalso; apply H; reflexivity].
        intros [msg Hmsg]. exfalso.
        destruct bin as [|start [|stop more]].
        -- rewrite start_recording_short_bin in Hmsg by (simpl; lia). discriminate.
        -- rewrite start_recording_short_bin in Hmsg by (simpl; lia). discriminate.
        -- rewrite start_recording_one_bin in Hmsg. discriminate.
      * rewrite start_recording_not_one_bin by discriminate. simpl.
        split; [intros _; right; discriminate | intros _; eexists; reflexivity].
    + rewrite start_recording_not_IT by assumption. simpl.
      split; [intros _; left; assumption | intros _; eexists; reflexivity].
  - intros bin -> -> Hlen. now rewrite start_recording_short_bin.
  - intros start stop more -> ->. rewrite start_recording_one_bin. split; reflexivity.
Qed.

(** C8: [look_at] is a function of the model's configuration and of the
    stimuli.  Whatever has been printed before, it returns the same
    assembly, over (presentation, neuroid, time_bin), with the stimuli's
    columns on the presentations and the configured window on the time bin;
    it leaves the model as it was and adds one line to the output; a second
    call right after the first returns the same assembly again. *)
Theorem look_at_pure (stimuli : StimulusSet) (o : t) (out out' : list string) :
  let first := look_at stimuli {| obj := o; stdout := out |} in
  let again := look_at stimuli (snd first) in
  fst first = outcome (look_at stimuli) {| obj := o; stdout := out' |}
  /\ fst again = fst first
  /\ obj (snd first) = o /\ obj (snd again) = o
  /\ stdout (snd first)
     = out ++ [("Looking at " ++ str_nat (len stimuli) ++ " stimuli")%string]
  /\ exists recordings,
      fst first = Ok recordings
      /\ dims recordings = ["presentation"; "neuroid"; "time_bin"]
      /\ coords_on recordings "presentation"
         = [("image_id", column image_id stimuli);
            ("object_name", column object_name stimuli)]
      /\ coords_on recordings "time_bin"
         = [("time_bin_start", [index_label (of_option (_time_bin_start o))]);
            ("time_bin_end", [index_label (of_option (_time_bin_end o))])].
Proof.
  intros first again. subst first again. unfold outcome.
  rewrite !look_at_run. simpl. rewrite look_at_run. simpl.
  repeat split; try reflexivity.
  eexists. repeat split; reflexivity.
Qed.

(** C10, as the code has it: for every stimulus set, [look_at] on a model
    object returns an assembly of shape (len(stimuli), 50, 1) over
    (presentation, neuroid, time_bin), with region 'IT' on each of the 50
    neuroids and the configured start and end on the one time bin.  A fresh
    model, on which [start_recording] was never called, returns as well; the
    two labels of its time bin, given as None, are missing labels of the
    index and read back as NaN, not as None. *)
Theorem look_at_shape_and_labels (stimuli : StimulusSet) (out : list string) :
  (forall o : t,
      reachable o ->
      exists recordings,
        outcome (look_at stimuli) {| obj := o; stdout := out |} = Ok recordings
        /\ shape (values recordings) = [len stimuli; 50%nat; 1%nat]
        /\ List.length (flat (values recordings)) = (len stimuli * 50 * 1)%nat
        /\ dims recordings = ["presentation"; "neuroid"; "time_bin"]
        /\ coord recordings "region" = Some (repeat (PyStr "IT") 50)
        /\ coords_on recordings "time_bin"
           = [("time_bin_start", [index_label (of_option (_time_bin_start o))]);
              ("time_bin_end", [index_label (of_option (_time_bin_end o))])]
        /\ (forall start stop,
              _time_bin_start o = Some start -> _time_bin_end o = Some stop ->
              coords_on recordings "time_bin"
              = [("time_bin_start", [PyInt start]); ("time_bin_end", [PyInt stop])]))
  /\ (exists recordings,
        outcome (look_at stimuli) {| obj := __init__; stdout := out |} = Ok recordings
        /\ shape (values recordings) = [len stimuli; 50%nat; 1%nat]
        /\ coords_on recordings "time_bin"
           = [("time_bin_start", [PyNaN]); ("time_bin_end", [PyNaN])]).
Proof.
  unfold outcome. split.
  - intros o Hreach. apply reachable_num_neurons in Hreach.
    rewrite look_at_run. simpl.
    eexists. split; [reflexivity|]. simpl.
    destruct (rand_shape (Numpy.seed 0) [len stimuli; _num_neurons o; 1%nat]) as [Hs Hl].
    rewrite Hs, Hl, Hreach. unfold coord. simpl.
    repeat split; try reflexivity; try lia.
    intros start stop Hstart Hstop. unfold coords_on. simpl.
    rewrite Hstart, Hstop. reflexivity.
  - rewrite look_at_run. simpl.
    eexists. split; [reflexivity|]. simpl.
    destruct (rand_shape (Numpy.seed 0) [len stimuli; 50%nat; 1%nat]) as [Hs _].
    rewrite Hs. split; reflexivity.
Qed.

End RandomITModel_properties.

(** ** MyBenchmark *)

Section MyBenchmark_properties.
Import BrainModel MyBenchmark.
Context {L : Library} {C : Type} {I : Interface C}.

Lemma bind_ok {St A B} (c : M St A) (k : A -> M St B) (s s' : St) (a : A) :
  c s = (Ok a, s') -> bind c k s = k a s'.
Proof. intros H. unfold bind. now rewrite H. Qed.

(** *** What a computation leaves alone *)

Section Keeps.
Variable P : Session C -> Session C -> Prop.
Hypothesis P_refl : forall s, P s s.
Hypothesis P_trans : forall s1 s2 s3, P s1 s2 -> P s2 s3 -> P s1 s3.

Lemma keeps_ret {A} (a : A) : keeps P (ret a).
Proof. intros s. apply P_refl. Qed.

Lemma keeps_lift {A} (r : result A) : keeps P (lift r).
Proof. intros s. apply P_refl. Qed.

Lemma keeps_get_this : keeps P get_this.
Proof. intros s. apply P_refl. Qed.

Lemma keeps_bind {A B} (c : M (Session C) A) (k : A -> M (Session C) B) :
  keeps P c -> (forall a, keeps P (k a)) -> keeps P (bind c k).
Proof.
  intros Hc Hk s. unfold bind. specialize (Hc s).
  destruct (c s) as [[a|e] s1]; simpl in *.
  - eapply P_trans; [exact Hc | apply Hk].
  - exact Hc.
Qed.
End Keeps.

Lemma same_self_print (line : string) : keeps (@same_self C) (print line).
Proof. intros s. reflexivity. Qed.

Lemma same_self_record (c : Call) : keeps (@same_self C) (record c).
Proof. intros s. reflexivity. Qed.

Lemma same_self_on_candidate {A} (m : M (Console C) A) :
  keeps (@same_self C) (on_candidate m).
Proof.
  intros s. unfold on_candidate.
  destruct (m _) as [r c]. reflexivity.
Qed.

Lemma same_self_trans (s1 s2 s3 : Session C) :
  same_self s1 s2 -> same_self s2 s3 -> same_self s1 s3.
Proof. unfold same_self. congruence. Qed.

Lemma same_self_refl (s : Session C) : same_self s s.
Proof. reflexivity. Qed.

Ltac keeps_self :=
  repeat first
    [ apply (keeps_bind (@same_self C) same_self_trans); [|intros ?]
    | apply (keeps_ret (@same_self C) same_self_refl)
    | apply (keeps_lift (@same_self C) same_self_refl)
    | apply (keeps_get_this (@same_self C) same_self_refl)
    | apply same_self_print
    | apply same_self_record
    | apply same_self_on_candidate ].

Lemma same_self_ceiling : keeps (@same_self C) ceiling.
Proof. unfold ceiling. keeps_self. Qed.

Lemma same_self_call : keeps (@same_self C) __call__.
Proof.
  unfold __call__. keeps_self.
Qed.

(** *** One access of the ceiling *)

Lemma ceiling_run (s : Session C) :
  ceiling s
  = (_ceiler (self s) (_assembly (self s)),
     {| self := self s; candidate := candidate s;
        console := console s ++ ["Computing ceiling"];
        calls := calls s ++ [ceiler_call (_assembly (self s))] |}).
Proof. reflexivity. Qed.

Lemma ceiler_invocations_ceiling (s : Session C) :
  ceiler_invocations (snd (ceiling s)) = S (ceiler_invocations s).
Proof.
  rewrite ceiling_run. unfold ceiler_invocations. simpl.
  rewrite filter_app, length_app. simpl. lia.
Qed.

Lemma access_ceiling_succ (n : nat) (s : Session C) :
  access_ceiling (S n) s
  = bind ceiling (fun c => match n with
                           | O => ret (Some c)
                           | S _ => access_ceiling n
                           end) s.
Proof. reflexivity. Qed.

(** C1: when the candidate carries out the experiment and the library
    calls return, [__call__] returns [explained_variance unceiled ceiling],
    where [unceiled] is the similarity metric on the candidate's
    predictions (their single time bin squeezed away) and on the
    repetition average of the stored assembly, and [ceiling] is the ceiling
    estimator on the stored assembly; the score returned has [unceiled] as
    its [raw] and [ceiling] as its [ceiling] attribute. *)
Theorem call_returns_explained_variance
        (s : Session C) (c1 c2 c3 c4 : Console C)
        (source_set stimuli : StimulusSet) (degrees : Z)
        (predictions squeezed assembly : DataAssembly)
        (unceiled ceiling_score score : Score) :
  start_task passive {| obj := candidate s; stdout := console s |} = (Ok tt, c1) ->
  start_recording "IT" [[100; 120]%Z] c1 = (Ok tt, c2) ->
  stimulus_set (_assembly (self s)) = Ok source_set ->
  visual_degrees c2 = (Ok degrees, c3) ->
  place_on_screen source_set degrees 8 = Ok stimuli ->
  look_at stimuli c3 = (Ok predictions, c4) ->
  average_repetition (_assembly (self s)) = Ok assembly ->
  squeeze "time_bin" predictions = Ok squeezed ->
  _similarity_metric (self s) squeezed assembly = Ok unceiled ->
  _ceiler (self s) (_assembly (self s)) = Ok ceiling_score ->
  explained_variance unceiled ceiling_score = Ok score ->
  outcome __call__ s = Ok score
  /\ attr "raw" score = Some unceiled
  /\ attr "ceiling" score = Some ceiling_score.
Proof.
  intros Htask Hrec Hset Hdeg Hplace Hlook Havg Hsq Hmetric Hceil Hev.
  split.
  - unfold outcome, __call__, bind, get_this, record, on_candidate, modify,
      lift, print, ret, ceiling. simpl.
    rewrite Htask. destruct c1 as [o1 out1]. simpl.
    rewrite Hrec. destruct c2 as [o2 out2]. simpl.
    rewrite Hset. simpl.
    rewrite Hdeg. destruct c3 as [o3 out3]. simpl.
    rewrite Hplace. simpl.
    rewrite Hlook. destruct c4 as [o4 out4]. simpl.
    rewrite Havg, Hsq. simpl.
    rewrite Hmetric. simpl.
    rewrite Hceil. simpl.
    rewrite Hev. reflexivity.
  - unfold explained_variance in Hev.
    destruct (sel_center unceiled), (sel_error unceiled), (sel_center ceiling_score);
      try discriminate Hev.
    inversion Hev; subst. simpl. auto.
Qed.

(** C3, as the code has it: the ceiling is computed when the property is
    read and is not kept: each access invokes the estimator once on the
    stored assembly and returns what it returns, so that [n] accesses in a
    row invoke it [n] times. *)
Theorem ceiling_computed_on_each_access
        (s : Session C) (ceiling_score : Score) (n : nat) :
  _ceiler (self s) (_assembly (self s)) = Ok ceiling_score ->
  outcome ceiling s = Ok ceiling_score
  /\ ceiler_invocations (exec ceiling s) = (ceiler_invocations s + 1)%nat
  /\ ceiler_invocations (exec (access_ceiling n) s) = (ceiler_invocations s + n)%nat
  /\ outcome (access_ceiling n) s
     = Ok (match n with O => None | S _ => Some ceiling_score end).
Proof.
  intros Hceil. split; [|split].
  - unfold outcome. rewrite ceiling_run. exact Hceil.
  - unfold exec. rewrite ceiler_invocations_ceiling. lia.
  - revert s Hceil. induction n as [|n IH]; intros s Hceil.
    + unfold exec, outcome. simpl. split; [lia | reflexivity].
    + assert (Hrun : ceiling s = (Ok ceiling_score, snd (ceiling s))).
      { rewrite ceiling_run. simpl. now rewrite Hceil. }
      unfold exec, outcome. rewrite access_ceiling_succ, (bind_ok _ _ _ _ _ Hrun).
      destruct n as [|n].
      * unfold ret. cbn [fst snd]. rewrite ceiler_invocations_ceiling.
        split; [lia | reflexivity].
      * assert (Hself : self (snd (ceiling s)) = self s) by apply same_self_ceiling.
        destruct (IH (snd (ceiling s))) as [IHn IHo].
        { rewrite Hself. exact Hceil. }
        unfold exec in IHn. unfold outcome in IHo.
        rewrite IHn, IHo, ceiler_invocations_ceiling. split; [lia | reflexivity].
Qed.

(** C2: [RandomITModel.start_task] raises for every task other than the
    passive one, having changed nothing but the output; and [__call__]
    starts the task before anything else, so on a candidate whose
    [start_task] rejects the task of the benchmark it raises that error
    with [start_task] as the only call made: [look_at] is not called. *)
Theorem unsupported_task_raises_before_look_at :
  (forall (task : Task) (o : RandomITModel.t) (out : list string),
      task <> passive ->
      RandomITModel.start_task task {| obj := o; stdout := out |}
      = (Raise (NotImplementedError ""),
         {| obj := o; stdout := out ++ [("Starting task " ++ str_Task task)%string] |}))
  /\ (forall (s : Session C) (e : exn) (rejected : Console C),
        start_task passive {| obj := candidate s; stdout := console s |}
        = (Raise e, rejected) ->
        outcome __call__ s = Raise e
        /\ calls (exec __call__ s) = calls s ++ [start_task_call passive]
        /\ look_at_invocations (exec __call__ s) = look_at_invocations s).
Proof.
  split.
  - intros task o out Htask. rewrite start_task_run.
    destruct task as [|task_name]; [contradiction | reflexivity].
  - intros s e rejected Hreject.
    assert (Hrun : __call__ s
                   = (Raise e, {| self := self s; candidate := obj rejected;
                                  console := stdout rejected;
                                  calls := calls s ++ [start_task_call passive] |})).
    { unfold __call__, bind, get_this, record, on_candidate, modify. simpl.
      rewrite Hreject. reflexivity. }
    unfold outcome, exec, look_at_invocations. rewrite Hrun. simpl.
    rewrite filter_app. simpl. rewrite app_nil_r. auto.
Qed.

End MyBenchmark_properties.

(** ** MyBenchmark.__call__ on shared objects *)

Section ByReference_properties.
Import ByReference.
Context {L : Library} {C : Type} {I : Interface C}.

(** *** What a run leaves in place *)




Lemma preserves_get_this (Inv : Session C -> Prop) : preserves Inv get_this.
Proof. intros s Hs. exact Hs. Qed.










Section Frame.
Variables (r : ref) (o : object) (this : t).






End Frame.

(** The outcome of the next call of a run of [__call__]. *)
Ltac next_call :=
  match goal with
  | |- context [match ?x with (_, _) => _ end] =>
      lazymatch x with
      | context [match _ with (_, _) => _ end] => fail
      | _ => idtac
      end;
      first [ is_var x; destruct x | destruct x as [[?|?] ?] eqn:? ]
  | |- context [match ?x with Ok _ => _ | Raise _ => _ end] =>
      lazymatch type of x with
      | result _ => destruct x eqn:?
      end
  end; simpl.

Ltac run_call :=
  unfold exec, outcome, __call__, ceiling, bind, get_this, record, on_candidate,
    on_store, modify, lift, print, ret; simpl;
  repeat next_call.




End ByReference_properties.

(** *** Collaborators that work on values write to no object *)

Section By_value.
Import ByReference.
Context {C : Type}.







End By_value.

(** *** The two embeddings of [__call__] agree

    With collaborators that work on values, the run on shared objects
    returns what [MyBenchmark.__call__] returns and leaves the candidate
    and the console as it leaves them. *)

Section Agreement.
Import ByReference.
Context {V : MyBenchmark.Library} {C : Type} {VI : BrainModel.Interface C}.

Lemma nth_error_grows {A} (l more : list A) (n : nat) (x : A) :
  nth_error l n = Some x -> nth_error (l ++ more) n = Some x.
Proof.
  intros H. rewrite nth_error_app1; [exact H|]. apply nth_error_Some. congruence.
Qed.

Lemma value_at_grows (st more : Store) (r : ref) (a : DataAssembly) :
  value_at st r a -> value_at (st ++ more) r a.
Proof.
  unfold value_at, load_assembly.
  destruct (nth_error st r) as [[array [set|]|stimuli]|] eqn:Hr; try discriminate.
  - destruct (nth_error st set) as [[array' attrs'|stimuli]|] eqn:Hset; try discriminate.
    intros H. inversion H; subst a; clear H.
    now rewrite (nth_error_grows _ _ _ _ Hr), (nth_error_grows _ _ _ _ Hset).
  - intros H. inversion H; subst a; clear H.
    now rewrite (nth_error_grows _ _ _ _ Hr).
Qed.

Lemma nth_error_last {A} (l : list A) (x : A) : nth_error (l ++ [x]) (List.length l) = Some x.
Proof. rewrite nth_error_app2, Nat.sub_diag by lia. reflexivity. Qed.

(** A new assembly object has the value it was made for. *)
Lemma new_assembly_value (a : DataAssembly) (st : Store) :
  exists r more attrs,
    new_assembly a st = (Ok r, st ++ more)
    /\ nth_error (st ++ more) r = Some (assembly_object a attrs)
    /\ value_at (st ++ more) r a.
Proof.
  destruct a as [vals ds cs nm [stimuli|]].
  - set (a := {| values := vals; dims := ds; coords := cs; name := nm;
                 attrs_stimulus_set := Some stimuli |}).
    exists (S (List.length st)),
           [stimulus_set_object stimuli; assembly_object a (Some (List.length st))],
           (Some (List.length st)).
    assert (Hobj : nth_error
                     (st ++ [stimulus_set_object stimuli;
                             assembly_object a (Some (List.length st))])
                     (S (List.length st))
                   = Some (assembly_object a (Some (List.length st)))).
    { rewrite nth_error_app2 by lia.
      replace (S (List.length st) - List.length st)%nat with 1%nat by lia. reflexivity. }
    assert (Hset : nth_error
                     (st ++ [stimulus_set_object stimuli;
                             assembly_object a (Some (List.length st))])
                     (List.length st)
                   = Some (stimulus_set_object stimuli)).
    { rewrite nth_error_app2, Nat.sub_diag by lia. reflexivity. }
    split; [|split; [exact Hobj|]].
    + lazy beta iota delta [new_assembly bind alloc attrs_stimulus_set a].
      rewrite <- app_assoc, length_app, Nat.add_1_r. reflexivity.
    + unfold value_at, load_assembly. rewrite Hobj, Hset. reflexivity.
  - set (a := {| values := vals; dims := ds; coords := cs; name := nm;
                 attrs_stimulus_set := None |}).
    exists (List.length st), [assembly_object a None], None.
    split; [reflexivity|].
    split; [apply nth_error_last|].
    unfold value_at, load_assembly. rewrite nth_error_last. reflexivity.
Qed.

(** What the collaborators that work on values do on a store. *)
Lemma stimulus_set_value (st : Store) (r : ref) (a : DataAssembly) :
  value_at st r a ->
  match Brainio.stimulus_set a with
  | Ok stimuli =>
      exists set,
        stimulus_set r st = (Ok set, st)
        /\ nth_error st set = Some (stimulus_set_object stimuli)
  | Raise e => stimulus_set r st = (Raise e, st)
  end.
Proof.
  unfold value_at, load_assembly, stimulus_set.
  destruct (nth_error st r) as [[array [set|]|stimuli]|]; try discriminate.
  - destruct (nth_error st set) as [[array' attrs'|stimuli]|] eqn:Hset; try discriminate.
    intros H. inversion H; subst a; clear H. simpl. exists set. auto.
  - intros H. inversion H; subst a; clear H. reflexivity.
Qed.

Lemma place_on_screen_value (st : Store) (x : ref) (stimuli : StimulusSet) (target source : Z) :
  nth_error st x = Some (stimulus_set_object stimuli) ->
  place_on_screen (Library := by_value_library V) x target source st
  = match MyBenchmark.place_on_screen stimuli target source with
    | Ok placed => (Ok (List.length st), st ++ [stimulus_set_object placed])
    | Raise e => (Raise e, st)
    end.
Proof.
  intros Hx. simpl. unfold bind, load_stimulus_set, lift. rewrite Hx.
  destruct (MyBenchmark.place_on_screen stimuli target source); reflexivity.
Qed.

Lemma average_repetition_value (st : Store) (r : ref) (a : DataAssembly) :
  value_at st r a ->
  average_repetition (Library := by_value_library V) r st
  = match MyBenchmark.average_repetition a with
    | Ok averaged => new_assembly averaged st
    | Raise e => (Raise e, st)
    end.
Proof.
  intros Hr. simpl. unfold bind, lift. rewrite Hr.
  destruct (MyBenchmark.average_repetition a); reflexivity.
Qed.

Lemma similarity_metric_value (this : MyBenchmark.t) (r0 : ref) (st : Store)
      (p q : ref) (source target : DataAssembly) :
  value_at st p source -> value_at st q target ->
  _similarity_metric (by_value this r0) p q st
  = (MyBenchmark._similarity_metric this source target, st).
Proof. intros Hp Hq. simpl. unfold bind, lift. now rewrite Hp, Hq. Qed.

Lemma ceiler_value (this : MyBenchmark.t) (r0 : ref) (st : Store)
      (r : ref) (a : DataAssembly) :
  value_at st r a ->
  _ceiler (by_value this r0) r st = (MyBenchmark._ceiler this a, st).
Proof. intros Hr. simpl. unfold bind, lift. now rewrite Hr. Qed.

Lemma look_at_value (st : Store) (x : ref) (stimuli : StimulusSet) (c : Console C) :
  nth_error st x = Some (stimulus_set_object stimuli) ->
  look_at (Interface := by_value_interface VI) x (c, st)
  = match BrainModel.look_at stimuli c with
    | (Ok recordings, c') =>
        let '(p, st') := new_assembly recordings st in (p, (c', st'))
    | (Raise e, c') => (Raise e, (c', st))
    end.
Proof.
  intros Hx. simpl. unfold bind, in_store, on_console, load_stimulus_set. simpl.
  rewrite Hx. cbn [fst snd].
  destruct (BrainModel.look_at stimuli c) as [[recordings|e] c']; reflexivity.
Qed.

Lemma squeeze_value (st : Store) (d : string) (p : ref)
      (recordings : DataAssembly) (attrs : option ref) :
  nth_error st p = Some (assembly_object recordings attrs) ->
  value_at st p recordings ->
  match Brainio.squeeze d recordings with
  | Ok squeezed =>
      squeeze d p st = (Ok (List.length st), st ++ [assembly_object squeezed attrs])
      /\ value_at (st ++ [assembly_object squeezed attrs]) (List.length st) squeezed
  | Raise e => squeeze d p st = (Raise e, st)
  end.
Proof.
  intros Hp Hval. unfold squeeze. rewrite Hp.
  destruct (Brainio.squeeze d recordings) as [squeezed|e] eqn:Hsq; [|reflexivity].
  split; [reflexivity|].
  assert (Hattrs : attrs_stimulus_set squeezed = attrs_stimulus_set recordings).
  { unfold Brainio.squeeze in Hsq.
    destruct (dim_size (dims recordings) (shape (values recordings)) d) as [[|[|n]]|];
      try discriminate.
    inversion Hsq. reflexivity. }
  unfold value_at, load_assembly in *. rewrite nth_error_last. rewrite Hp in Hval.
  destruct attrs as [set|].
  - destruct (nth_error st set) as [[array' attrs'|stimuli]|] eqn:Hset; try discriminate.
    rewrite (nth_error_grows _ _ _ _ Hset).
    inversion Hval as [Hrec]. rewrite <- Hrec in Hattrs. simpl in Hattrs.
    destruct squeezed as [vals ds cs nm set']. simpl in Hattrs. subst set'. reflexivity.
  - inversion Hval as [Hrec]. rewrite <- Hrec in Hattrs. simpl in Hattrs.
    destruct squeezed as [vals ds cs nm set']. simpl in Hattrs. subst set'. reflexivity.
Qed.

Lemma on_console_run {A} (m : M (Console C) A) (c : Console C) (st : Store) :
  on_console m (c, st) = (fst (m c), (snd (m c), st)).
Proof. unfold on_console. simpl. destruct (m c). reflexivity. Qed.

Ltac reduce :=
  cbn [fst snd self candidate console store calls get_stdout set_stdout
       Session_Stdout MyBenchmark.Session_Stdout
       MyBenchmark.self MyBenchmark.candidate MyBenchmark.console MyBenchmark.calls
       _assembly by_value obj stdout].

Theorem by_reference_agrees (s : MyBenchmark.Session C) (st : Store) (r : ref) :
  value_at st r (MyBenchmark._assembly (MyBenchmark.self s)) ->
  let run := __call__ (L := by_value_library V) (I := by_value_interface VI)
               {| self := by_value (MyBenchmark.self s) r;
                  candidate := MyBenchmark.candidate s;
                  console := MyBenchmark.console s;
                  store := st;
                  calls := [] |} in
  fst run = outcome MyBenchmark.__call__ s
  /\ candidate (snd run) = MyBenchmark.candidate (exec MyBenchmark.__call__ s)
  /\ console (snd run) = MyBenchmark.console (exec MyBenchmark.__call__ s).
Proof.
  intros Hval run. subst run. destruct s as [this cand out trace].
  cbn [MyBenchmark.self MyBenchmark.candidate MyBenchmark.console] in *.
  unfold outcome, exec, __call__, MyBenchmark.__call__, ceiling, MyBenchmark.ceiling,
    bind, get_this, MyBenchmark.get_this, record, MyBenchmark.record,
    on_candidate, MyBenchmark.on_candidate, on_store, print, modify, lift, ret.
  reduce.
  (* start_task *)
  change (@start_task C (by_value_interface VI) BrainModel.passive)
    with (on_console (C := C) (BrainModel.start_task BrainModel.passive)).
  rewrite on_console_run.
  destruct (BrainModel.start_task BrainModel.passive {| obj := cand; stdout := out |})
    as [[[]|e] [o1 out1]]; reduce; [|auto].
  (* start_recording *)
  change (@start_recording C (by_value_interface VI) "IT" [[100; 120]%Z])
    with (on_console (C := C) (BrainModel.start_recording "IT" [[100; 120]%Z])).
  rewrite on_console_run.
  destruct (BrainModel.start_recording "IT" [[100; 120]%Z] {| obj := o1; stdout := out1 |})
    as [[[]|e] [o2 out2]]; reduce; [|auto].
  (* self._assembly.stimulus_set *)
  pose proof (stimulus_set_value st r _ Hval) as Hset.
  destruct (Brainio.stimulus_set (MyBenchmark._assembly this)) as [source_set|e];
    [destruct Hset as [set [Hset Hobj]]|]; rewrite Hset; reduce; [|auto].
  (* visual_degrees *)
  change (@visual_degrees C (by_value_interface VI))
    with (on_console (C := C) BrainModel.visual_degrees).
  rewrite on_console_run.
  destruct (BrainModel.visual_degrees {| obj := o2; stdout := out2 |})
    as [[degrees|e] [o3 out3]]; reduce; [|auto].
  (* place_on_screen *)
  rewrite (place_on_screen_value st set source_set degrees 8 Hobj).
  destruct (MyBenchmark.place_on_screen source_set degrees 8) as [stimuli|e];
    reduce; [|auto].
  (* look_at *)
  rewrite (look_at_value _ _ stimuli _ (nth_error_last st (stimulus_set_object stimuli))).
  destruct (BrainModel.look_at stimuli {| obj := o3; stdout := out3 |})
    as [[recordings|e] [o4 out4]]; reduce; [|auto].
  destruct (new_assembly_value recordings (st ++ [stimulus_set_object stimuli]))
    as (p & more & attrs & Hnew & Hp & Hpval).
  rewrite Hnew. reduce.
  (* average_repetition *)
  assert (Hval2 : value_at ((st ++ [stimulus_set_object stimuli]) ++ more) r
                           (MyBenchmark._assembly this))
    by (now do 2 apply value_at_grows).
  rewrite (average_repetition_value _ _ _ Hval2).
  destruct (MyBenchmark.average_repetition (MyBenchmark._assembly this))
    as [assembly|e]; reduce; [|auto].
  destruct (new_assembly_value assembly ((st ++ [stimulus_set_object stimuli]) ++ more))
    as (q & more' & attrs' & Hnew' & Hq & Hqval).
  rewrite Hnew'. reduce.
  (* squeeze *)
  pose proof (squeeze_value _ "time_bin" p recordings attrs
                (nth_error_grows _ more' _ _ Hp) (value_at_grows _ more' _ _ Hpval)) as Hsq.
  destruct (Brainio.squeeze "time_bin" recordings) as [squeezed|e];
    [destruct Hsq as [Hsq Hsqval]|]; rewrite Hsq; reduce; [|auto].
  (* the metric *)
  rewrite (similarity_metric_value this r _ _ _ squeezed assembly Hsqval
             (value_at_grows _ _ _ _ Hqval)).
  reduce.
  destruct (MyBenchmark._similarity_metric this squeezed assembly) as [unceiled|e];
    reduce; [|auto].
  (* the ceiling *)
  rewrite (ceiler_value this r _ r (MyBenchmark._assembly this)
             (value_at_grows _ _ _ _ (value_at_grows _ _ _ _ Hval2))).
  reduce.
  destruct (MyBenchmark._ceiler this (MyBenchmark._assembly this)) as [ceiling_score|e];
    reduce; [|auto].
  destruct (explained_variance unceiled ceiling_score); reduce; auto.
Qed.

End Agreement.

(** ** explained_variance *)

Section Scores_properties.

(** Dividing a mantissa by itself, at the precision of binary64. *)
Lemma SFdiv_core_binary_self (m : positive) (e : Z) :
  SFdiv_core_binary prec emax (Zpos m) e (Zpos m) e
  = (9007199254740992%Z, (-53)%Z, loc_Exact).
Proof.
  unfold SFdiv_core_binary.
  rewrite !Z.sub_diag.
  change (Z.min (fexp prec emax 0) 0) with (-53)%Z.
  change (0 - -53)%Z with 53%Z. cbv beta iota zeta.
  rewrite Z.shiftl_mul_pow2 by lia.
  pose proof (Z.div_mul (2 ^ 53) (Zpos m) ltac:(lia)) as Hq.
  pose proof (Z.mod_mul (2 ^ 53) (Zpos m) ltac:(lia)) as Hr.
  rewrite (Z.mul_comm (2 ^ 53)) in Hq, Hr.
  unfold Z.div, Z.modulo in Hq, Hr.
  destruct (Z.div_eucl (Zpos m * 2 ^ 53) (Zpos m)) as [q r].
  simpl in Hq, Hr. subst q r.
  unfold new_location, new_location_even, new_location_odd.
  destruct (Z.even (Zpos m)); reflexivity.
Qed.

(** A finite non-zero float divided by itself is exactly 1. *)
Lemma div_self (x : float) :
  finite_nonzero x = true -> (x / x)%float = 1%float.
Proof.
  intros H. apply Prim2SF_inj. rewrite div_spec.
  unfold finite_nonzero in H. rewrite classify_spec in H.
  destruct (Prim2SF x) as [sx|sx| |sx m e].
  - destruct sx; discriminate H.
  - destruct sx; discriminate H.
  - discriminate H.
  - unfold SF64div, SFdiv. rewrite SFdiv_core_binary_self.
    destruct sx; reflexivity.
Qed.

(** C6, as the code has it: a score whose center is a finite non-zero
    number, normalized by itself, has center exactly 1 (so it is within
    any tolerance of 1); its error is its own, and it is attached both as
    [raw] and as [ceiling]. *)
Theorem explained_variance_self (center error : float) (attrs : list (string * Score)) :
  finite_nonzero center = true ->
  let s := Aggregation center error attrs in
  explained_variance s s
  = Ok (Aggregation 1 error [("raw", s); ("ceiling", s)])
  /\ ceils_to_one 0 s = true.
Proof.
  intros H s. subst s. unfold ceils_to_one, explained_variance. simpl.
  rewrite (div_self center H). split; reflexivity.
Qed.

End Scores_properties.

(** ** The properties at concrete inputs *)

Import BrainModel MyBenchmark Demo.
#[local] Existing Instance RandomITModel.RandomITModel_Interface.

Lemma start_recording_raises_iff_unsupported_witness :
  (List.length [100%Z] < 2)%nat
  /\ fst (RandomITModel.start_recording "IT" [[100%Z]]
            {| obj := RandomITModel.__init__; stdout := [] |})
     = Raise (IndexError "list index out of range")
  /\ fst (RandomITModel.start_recording "IT" [[100; 120]%Z]
            {| obj := RandomITModel.__init__; stdout := [] |}) = Ok tt
  /\ obj (snd (RandomITModel.start_recording "IT" [[100; 120]%Z]
                 {| obj := RandomITModel.__init__; stdout := [] |}))
     = {| RandomITModel._num_neurons := 50;
          RandomITModel._time_bin_start := Some 100%Z;
          RandomITModel._time_bin_end := Some 120%Z |}.
Proof.
  assert (H : (List.length [100%Z] < 2)%nat) by (simpl; lia).
  split; [exact H|]. split.
  - pose proof (start_recording_raises_iff_unsupported
                  "IT" [[100%Z]] RandomITModel.__init__ []) as [_ [_ [Hshort _]]].
    exact (Hshort [100%Z] eq_refl eq_refl H).
  - pose proof (start_recording_raises_iff_unsupported
                  "IT" [[100; 120]%Z] RandomITModel.__init__ []) as [_ [_ [_ [_ Hok]]]].
    exact (Hok 100%Z 120%Z [] eq_refl eq_refl).
Defined.

(** C4, as stated, fails: the target "IT" and exactly one bin are what the
    claim calls supported, and with the one bin [100] the call raises all
    the same. *)
Lemma start_recording_raises_on_one_short_bin :
  is_raise (outcome (RandomITModel.start_recording "IT" [[100%Z]])
                    {| obj := RandomITModel.__init__; stdout := [] |}) = true
  /\ ~ ("IT" <> "IT" \/ List.length [[100%Z]] <> 1%nat).
Proof.
  split; [reflexivity|]. intros [H|H]; apply H; reflexivity.
Qed.

Lemma look_at_shape_and_labels_witness :
  RandomITModel.reachable
    (obj (exec (RandomITModel.start_recording "IT" [[100; 120]%Z])
               {| obj := RandomITModel.__init__; stdout := [] |}))
  /\ exists recordings,
      outcome (RandomITModel.look_at two_stimuli) recording = Ok recordings
      /\ shape (values recordings) = [2; 50; 1]%nat
      /\ coords_on recordings "time_bin"
         = [("time_bin_start", [PyInt 100]); ("time_bin_end", [PyInt 120])].
Proof.
  assert (H : RandomITModel.reachable
                (obj (exec (RandomITModel.start_recording "IT" [[100; 120]%Z])
                           {| obj := RandomITModel.__init__; stdout := [] |})))
    by (apply RandomITModel.reachable_start_recording; constructor).
  split; [exact H|].
  destruct (look_at_shape_and_labels two_stimuli (stdout recording)) as [Hany _].
  destruct (Hany _ H) as [recordings [Hout [Hshape [_ [_ [_ [_ Hbin]]]]]]].
  exists recordings.
  split; [exact Hout | split; [exact Hshape | exact (Hbin 100%Z 120%Z eq_refl eq_refl)]].
Defined.

(** C10, as stated, fails: on a fresh model the time bin is not labelled
    with None and None; the two labels are read back as NaN. *)
Lemma look_at_fresh_labels_not_None :
  exists recordings,
    outcome (RandomITModel.look_at two_stimuli)
            {| obj := RandomITModel.__init__; stdout := [] |} = Ok recordings
    /\ coords_on recordings "time_bin"
       = [("time_bin_start", [PyNaN]); ("time_bin_end", [PyNaN])]
    /\ coords_on recordings "time_bin"
       <> [("time_bin_start", [PyNone]); ("time_bin_end", [PyNone])].
Proof.
  unfold outcome. rewrite look_at_run.
  eexists. split; [reflexivity|]. split; [reflexivity|].
  intros H. lazy in H. discriminate H.
Qed.

(** The lines that the last cell of the notebook printed, in their order. *)
Example notebook_output :
  console (exec __call__ notebook_session)
  = [ "Starting task Task.passive";
      "Recording from IT during [array([100, 120])] ms";
      "Declaring model to have a visual field size of 8 degrees";
      "Looking at 1000 stimuli";
      "Computing model-match";
      "Computing ceiling" ].
Proof. lazy. reflexivity. Qed.

Lemma call_returns_explained_variance_witness :
  outcome __call__ session = Ok ceiled
  /\ attr "raw" ceiled = Some printed_raw
  /\ attr "ceiling" ceiled = Some printed_ceiling.
Proof.
  apply (call_returns_explained_variance
           session started recording declared looked two_stimuli two_stimuli 8%Z
           predictions squeezed reference printed_raw printed_ceiling ceiled);
    vm_compute; reflexivity.
Defined.

Lemma ceiling_computed_on_each_access_witness :
  _ceiler (self session) (_assembly (self session)) = Ok printed_ceiling
  /\ ceiler_invocations (exec (access_ceiling 3) session) = 3%nat.
Proof.
  split; [reflexivity|].
  destruct (ceiling_computed_on_each_access session printed_ceiling 3 eq_refl)
    as [_ [_ [H _]]].
  exact H.
Defined.

(** C3, as stated, fails: two accesses of [ceiling] on one benchmark
    object invoke the estimator twice, not at most once. *)
Lemma ceiling_not_memoized :
  ceiler_invocations (exec (access_ceiling 2) session) = 2%nat
  /\ ~ (ceiler_invocations (exec (access_ceiling 2) session) <= 1)%nat.
Proof.
  assert (H : ceiler_invocations (exec (access_ceiling 2) session) = 2%nat)
    by reflexivity.
  split; [exact H | rewrite H; lia].
Qed.

Lemma unsupported_task_raises_before_look_at_witness :
  (other_task "label" <> passive
   /\ outcome (RandomITModel.start_task (other_task "label"))
              {| obj := RandomITModel.__init__; stdout := [] |}
      = Raise (NotImplementedError ""))
  /\ (start_task (Interface := taskless) passive
         {| obj := candidate taskless_session; stdout := console taskless_session |}
       = (Raise (NotImplementedError "no task"), {| obj := tt; stdout := [] |})
      /\ outcome (__call__ (I := taskless)) taskless_session
         = Raise (NotImplementedError "no task")
      /\ look_at_invocations (exec (__call__ (I := taskless)) taskless_session) = 0%nat).
Proof.
  assert (Htask : other_task "label" <> passive) by discriminate.
  assert (Hreject : start_task (Interface := taskless) passive
                      {| obj := candidate taskless_session;
                         stdout := console taskless_session |}
                    = (Raise (NotImplementedError "no task"),
                       {| obj := tt; stdout := [] |})) by reflexivity.
  destruct (unsupported_task_raises_before_look_at (I := taskless))
    as [Hmodel Hcall].
  split.
  - split; [exact Htask|].
    unfold outcome. now rewrite (Hmodel _ RandomITModel.__init__ [] Htask).
  - split; [exact Hreject|].
    destruct (Hcall taskless_session _ _ Hreject) as [Hout [_ Hlook]].
    split; [exact Hout | exact Hlook].
Defined.

(** The center that the notebook printed for the normalized score,
    9.656137e-05, is the squared ratio of the printed centers of the raw
    score and of the ceiling, up to the digits that were printed. *)
#[warnings="-inexact-float"]
Example explained_variance_printed :
  exists center attrs,
    explained_variance printed_raw printed_ceiling
    = Ok (Aggregation center 0.013101 attrs)
    /\ near 0.00000002 center 0.00009656137 = true.
Proof. do 2 eexists. split; reflexivity. Qed.

Lemma explained_variance_self_witness :
  finite_nonzero 0.5 = true
  /\ explained_variance (Aggregation 0.5 0.25 []) (Aggregation 0.5 0.25 [])
     = Ok (Aggregation 1 0.25 [("raw", Aggregation 0.5 0.25 []);
                               ("ceiling", Aggregation 0.5 0.25 [])]).
Proof.
  assert (H : finite_nonzero 0.5 = true) by reflexivity.
  split; [exact H|].
  destruct (explained_variance_self 0.5 0.25 [] H) as [Hev _].
  exact Hev.
Defined.

(** C6, as stated, fails: a score with center 0, normalized by itself, has
    the center 0/0, which is NaN and within no tolerance of 1. *)
Lemma explained_variance_zero_center_not_near_one :
  explained_variance (Aggregation 0 0.25 []) (Aggregation 0 0.25 [])
  = Ok (Aggregation nan 0.25 [("raw", Aggregation 0 0.25 []);
                              ("ceiling", Aggregation 0 0.25 [])])
  /\ ceils_to_one infinity (Aggregation 0 0.25 []) = false.
Proof. split; reflexivity. Qed.



(** The stored assembly stays as it is only as far as the callees leave
    it: an estimator that writes to the assembly it is handed changes the
    assembly that the benchmark holds. *)
Example estimator_that_writes_changes_assembly :
  outcome ByReference.__call__ naming_session = Ok ceiled
  /\ nth_error (ByReference.store naming_session) 1
     = Some (ByReference.assembly_object reference (Some 0%nat))
  /\ nth_error (ByReference.store (exec ByReference.__call__ naming_session)) 1
     = Some (ByReference.assembly_object (set_name reference "ceiled") (Some 0%nat)).
Proof. vm_compute. repeat split. Qed.

(* ================================================================= *)
(** * Further properties *)

(** ** RandomITModel: outcomes, effects and configuration *)

Section RandomITModel_behaviour.
Import RandomITModel.
Context {R : Numpy.Random} {P : Numpy.Printing}.

(** X2: of the four methods only [start_recording] changes the model, only
    when it returns, and never the number of neurons: [look_at],
    [start_task] and [visual_degrees] leave the model as it was, whether
    they return or raise. *)
Theorem only_start_recording_configures
        (o : t) (out : list string) (stimuli : StimulusSet) (task : BrainModel.Task)
        (recording_target : string) (time_bins : list (list Z)) :
  let c := {| obj := o; stdout := out |} in
  obj (exec (look_at stimuli) c) = o
  /\ obj (exec (start_task task) c) = o
  /\ obj (exec visual_degrees c) = o
  /\ (is_raise (outcome (start_recording recording_target time_bins) c) = true ->
      obj (exec (start_recording recording_target time_bins) c) = o)
  /\ _num_neurons (obj (exec (start_recording recording_target time_bins) c))
     = _num_neurons o.
Proof.
  intros c. subst c. unfold exec, outcome.
  rewrite look_at_run, start_task_run, visual_degrees_run. simpl.
  repeat split.
  - apply start_recording_raise_keeps.
  - destruct (String.eqb_spec recording_target "IT") as [->|Hne];
      [|now rewrite start_recording_not_IT].
    destruct time_bins as [|bin [|bin' rest]];
      try (now rewrite start_recording_not_one_bin).
    destruct bin as [|start [|stop more]]; reflexivity.
Qed.

(** X3: every method calls [print] once, before it does anything else: the
    output after a call is the output before it followed by the text of
    that one call, also when the method raises.  For [start_recording] the
    text shows the bins as Python shows a list of arrays, each array by
    numpy's [repr]. *)
Theorem methods_print_one_line
        (o : t) (out : list string) (stimuli : StimulusSet) (task : BrainModel.Task)
        (recording_target : string) (time_bins : list (list Z)) :
  let c := {| obj := o; stdout := out |} in
  stdout (exec (look_at stimuli) c)
  = out ++ [("Looking at " ++ str_nat (len stimuli) ++ " stimuli")%string]
  /\ stdout (exec (start_task task) c)
     = out ++ [("Starting task " ++ BrainModel.str_Task task)%string]
  /\ stdout (exec (start_recording recording_target time_bins) c)
     = out ++ [("Recording from " ++ recording_target ++ " during "
                  ++ repr_list (map repr_array time_bins) ++ " ms")%string]
  /\ stdout (exec visual_degrees c)
     = out ++ ["Declaring model to have a visual field size of 8 degrees"].
Proof.
  intros c. subst c. unfold exec.
  rewrite look_at_run, start_task_run, visual_degrees_run. simpl.
  repeat split.
  destruct (String.eqb_spec recording_target "IT") as [->|Hne];
    [|now rewrite start_recording_not_IT].
  destruct time_bins as [|bin [|bin' rest]];
    try (now rewrite start_recording_not_one_bin).
  destruct bin as [|start [|stop more]]; reflexivity.
Qed.

(** X4: the recorded window is never half set: in every state that the
    methods lead to from a fresh model, start and end are both [None] or
    both set. *)
Theorem window_set_together (o : t) :
  reachable o ->
  (_time_bin_start o = None /\ _time_bin_end o = None)
  \/ (exists start stop, _time_bin_start o = Some start /\ _time_bin_end o = Some stop).
Proof.
  induction 1 as [|o out stimuli _ IH|o out task _ IH
                  |o out target bins _ IH|o out _ IH].
  - left. split; reflexivity.
  - unfold exec. now rewrite look_at_run.
  - unfold exec. now rewrite start_task_run.
  - destruct (String.eqb_spec target "IT") as [->|Hne].
    + destruct bins as [|bin [|bin' rest]].
      * unfold exec. now rewrite start_recording_not_one_bin.
      * destruct bin as [|start [|stop more]]; try exact IH.
        right. exists start, stop. split; reflexivity.
      * unfold exec. now rewrite start_recording_not_one_bin.
    + unfold exec. now rewrite start_recording_not_IT.
  - exact IH.
Qed.

(** X5: what [start_recording] sets is what [look_at] labels: after
    [start_recording("IT", [bin])] has returned, from whatever state,
    [look_at] labels the time bin with the first two entries of [bin], and it
    still does after any later [start_recording] that raised. *)
Theorem look_at_labels_recorded_window
        (o : t) (out : list string) (start stop : Z) (more : list Z)
        (stimuli : StimulusSet) (recording_target : string) (time_bins : list (list Z)) :
  let configured :=
    exec (start_recording "IT" [start :: stop :: more]) {| obj := o; stdout := out |} in
  let refused := exec (start_recording recording_target time_bins) configured in
  (exists recordings,
      outcome (look_at stimuli) configured = Ok recordings
      /\ coords_on recordings "time_bin"
         = [("time_bin_start", [PyInt start]); ("time_bin_end", [PyInt stop])])
  /\ (is_raise (outcome (start_recording recording_target time_bins) configured) = true ->
      exists recordings,
        outcome (look_at stimuli) refused = Ok recordings
        /\ coords_on recordings "time_bin"
           = [("time_bin_start", [PyInt start]); ("time_bin_end", [PyInt stop])]).
Proof.
  intros configured refused.
  assert (Hlook : forall c : Console t,
             obj c = {| _num_neurons := _num_neurons o;
                        _time_bin_start := Some start;
                        _time_bin_end := Some stop |} ->
             exists recordings,
               outcome (look_at stimuli) c = Ok recordings
               /\ coords_on recordings "time_bin"
                  = [("time_bin_start", [PyInt start]); ("time_bin_end", [PyInt stop])]).
  { intros [o' out'] Ho. simpl in Ho. subst o'.
    unfold outcome. rewrite look_at_run. simpl.
    eexists. split; reflexivity. }
  assert (Hconf : obj configured = {| _num_neurons := _num_neurons o;
                                      _time_bin_start := Some start;
                                      _time_bin_end := Some stop |}).
  { subst configured. unfold exec. now rewrite start_recording_one_bin. }
  split.
  - apply Hlook, Hconf.
  - intros Hraise. apply Hlook. subst refused.
    destruct configured as [o' out']. simpl in Hconf.
    rewrite (start_recording_raise_keeps _ _ _ _ Hraise). exact Hconf.
Qed.

Lemma random_samples_app (a b : nat) (rnd : RandomState) :
  fst (random_samples (a + b) rnd)
  = fst (random_samples a rnd)
      ++ fst (random_samples b (snd (random_samples a rnd))).
Proof.
  revert rnd. induction a as [|a IH]; intros rnd; simpl; [reflexivity|].
  destruct (random_sample rnd) as [x rnd1].
  specialize (IH rnd1).
  destruct (random_samples (a + b) rnd1) as [xs rnd2].
  destruct (random_samples a rnd1) as [ys rnd3]. simpl in *.
  now rewrite IH.
Qed.

Lemma rand_flat (rnd : RandomState) (shp : list nat) :
  flat (fst (rand rnd shp)) = fst (random_samples (size_of shp) rnd).
Proof.
  unfold rand. destruct (random_samples (size_of shp) rnd) as [xs rnd']. reflexivity.
Qed.

(** X6: the responses do not depend on what the stimuli are, nor on the
    recorded window: for two stimulus sets of the same length and two models
    with the same number of neurons, [look_at] returns the same array of
    values. *)
Theorem look_at_values_ignore_stimuli
        (stimuli stimuli' : StimulusSet) (o o' : t) (out out' : list string) :
  len stimuli = len stimuli' ->
  _num_neurons o = _num_neurons o' ->
  exists recordings recordings',
    outcome (look_at stimuli) {| obj := o; stdout := out |} = Ok recordings
    /\ outcome (look_at stimuli') {| obj := o'; stdout := out' |} = Ok recordings'
    /\ values recordings = values recordings'.
Proof.
  intros Hlen Hnum. unfold outcome. rewrite !look_at_run. simpl.
  do 2 eexists. split; [reflexivity|]. split; [reflexivity|]. simpl.
  now rewrite Hlen, Hnum.
Qed.

(** X7: the responses to the first stimuli do not depend on how many
    stimuli follow: the values that [look_at] returns for a stimulus set are
    the first of the values that it returns for any longer one. *)
Theorem look_at_values_prefix
        (stimuli more : StimulusSet) (o : t) (out : list string) :
  exists recordings longer,
    outcome (look_at stimuli) {| obj := o; stdout := out |} = Ok recordings
    /\ outcome (look_at (stimuli ++ more)) {| obj := o; stdout := out |} = Ok longer
    /\ List.length (flat (values recordings)) = (len stimuli * _num_neurons o)%nat
    /\ firstn (len stimuli * _num_neurons o) (flat (values longer))
       = flat (values recordings).
Proof.
  unfold outcome. rewrite !look_at_run. simpl.
  do 2 eexists. split; [reflexivity|]. split; [reflexivity|]. simpl.
  rewrite !rand_flat. unfold len. rewrite length_app.
  assert (Hsize : forall n, size_of [n; _num_neurons o; 1%nat] = (n * _num_neurons o)%nat).
  { intros n. simpl. lia. }
  rewrite !Hsize, Nat.mul_add_distr_r, random_samples_app.
  pose proof (random_samples_length (List.length stimuli * _num_neurons o) (Numpy.seed 0))
    as Hlen.
  split; [exact Hlen|].
  rewrite <- Hlen at 1. rewrite firstn_app, Nat.sub_diag, firstn_all. simpl.
  apply app_nil_r.
Qed.

(** X8: whatever the state of the model, [look_at] returns a well-formed
    assembly: three dimensions named apart, values that fill the shape, and
    on every dimension as many labels as entries; the neuroids are numbered
    from 0, the assembly is named 'random_it_model' and carries no stimulus
    set. *)
Theorem look_at_well_formed (stimuli : StimulusSet) (o : t) (out : list string) :
  exists recordings,
    outcome (look_at stimuli) {| obj := o; stdout := out |} = Ok recordings
    /\ well_formed recordings = true
    /\ shape (values recordings) = [len stimuli; _num_neurons o; 1%nat]
    /\ coord recordings "neuroid_id"
       = Some (map (fun i => PyInt (Z.of_nat i)) (seq 0 (_num_neurons o)))
    /\ name recordings = Some "random_it_model"
    /\ attrs_stimulus_set recordings = None.
Proof.
  unfold outcome. rewrite look_at_run. simpl.
  eexists. split; [reflexivity|].
  destruct (rand_shape (Numpy.seed 0) [len stimuli; _num_neurons o; 1%nat]) as [Hs Hl].
  unfold well_formed, coord, arange. simpl. rewrite Hs, Hl. simpl.
  unfold coord_well_formed, column, len. simpl.
  rewrite !length_map, length_seq, repeat_length, !Nat.eqb_refl, map_map.
  repeat split.
Qed.

End RandomITModel_behaviour.

(** ** MyBenchmark.__call__: the order of the calls and what a failure skips *)

Section MyBenchmark_protocol.
Context {L : Library} {C : Type} {I : Interface C}.

(** The outcome of the next call of a run of [__call__]. *)
Ltac next_call :=
  match goal with
  | |- context [@start_task ?C' ?I' ?t ?c] =>
      destruct (@start_task C' I' t c) as [[[]|?] [? ?]] eqn:?
  | |- context [@start_recording ?C' ?I' ?t ?b ?c] =>
      destruct (@start_recording C' I' t b c) as [[[]|?] [? ?]] eqn:?
  | |- context [@visual_degrees ?C' ?I' ?c] =>
      destruct (@visual_degrees C' I' c) as [[?|?] [? ?]] eqn:?
  | |- context [@look_at ?C' ?I' ?st ?c] =>
      destruct (@look_at C' I' st c) as [[?|?] [? ?]] eqn:?
  | |- context [match ?x with Ok _ => _ | Raise _ => _ end] =>
      lazymatch type of x with
      | result _ => destruct x eqn:?
      end
  end; simpl.

Ltac run_call :=
  unfold exec, outcome, __call__, ceiling, bind, get_this, record, on_candidate,
    modify, lift, print, ret; simpl;
  repeat next_call.

(** X9: [__call__] makes its calls in one order and each at most once:
    [start_task], [start_recording], [visual_degrees], [look_at], the
    similarity metric, the ceiling estimator.  However the call ends, the
    calls it has made are the first [k] of these, and all six when it
    returns. *)
Theorem call_follows_protocol (s : Session C) :
  exists k stimuli source target,
    calls (exec __call__ s)
    = calls s ++ firstn k (protocol (self s) stimuli source target)
    /\ (forall score, outcome __call__ s = Ok score -> k = 6%nat).
Proof.
  run_call.
  all: rewrite <- ?app_assoc; simpl.
  all: first
         [ exists 1%nat, [], (_assembly (self s)), (_assembly (self s));
           split; [reflexivity | discriminate]
         | exists 2%nat, [], (_assembly (self s)), (_assembly (self s));
           split; [reflexivity | discriminate]
         | exists 3%nat, [], (_assembly (self s)), (_assembly (self s));
           split; [reflexivity | discriminate]
         | exists 4%nat; eexists; exists (_assembly (self s)), (_assembly (self s));
           split; [reflexivity | discriminate]
         | exists 5%nat; do 3 eexists; split; [reflexivity | discriminate]
         | exists 6%nat; do 3 eexists; split; [reflexivity | discriminate]
         | exists 6%nat; do 3 eexists; split; [reflexivity | reflexivity] ].
Qed.

(** X10: the ceiling is computed last and only when it is needed: either
    [__call__] has not invoked the ceiling estimator at all, or it has made
    all six calls of the protocol, the similarity metric has returned a
    score, and the estimator was invoked once. *)
Theorem call_computes_ceiling_after_metric (s : Session C) :
  ceiler_invocations (exec __call__ s) = ceiler_invocations s
  \/ (exists stimuli source target unceiled,
         calls (exec __call__ s) = calls s ++ protocol (self s) stimuli source target
         /\ _similarity_metric (self s) source target = Ok unceiled
         /\ ceiler_invocations (exec __call__ s) = S (ceiler_invocations s)).
Proof.
  run_call.
  all: unfold ceiler_invocations; simpl; rewrite <- ?app_assoc; simpl.
  all: rewrite ?filter_app, ?length_app; simpl.
  all: try (left; lia).
  all: right; do 4 eexists;
    (split; [reflexivity|]); (split; [eassumption|]); lia.
Qed.

(** X11: the candidate is shown stimuli only once it is set up: either
    [__call__] has not called [look_at], or [start_task], [start_recording]
    and [visual_degrees] have returned, the stored assembly has a stimulus
    set, [place_on_screen] has returned for that set, the candidate's visual
    degrees and the source's 8 degrees, and [look_at] was called once, with
    the stimuli that [place_on_screen] returned. *)
Theorem call_shows_stimuli_after_setup (s : Session C) :
  look_at_invocations (exec __call__ s) = look_at_invocations s
  \/ (exists c1 c2 c3 source_set degrees stimuli,
         start_task passive {| obj := candidate s; stdout := console s |} = (Ok tt, c1)
         /\ start_recording "IT" [[100; 120]%Z] c1 = (Ok tt, c2)
         /\ stimulus_set (_assembly (self s)) = Ok source_set
         /\ visual_degrees c2 = (Ok degrees, c3)
         /\ place_on_screen source_set degrees 8 = Ok stimuli
         /\ look_at_invocations (exec __call__ s) = S (look_at_invocations s)
         /\ In (look_at_call stimuli) (calls (exec __call__ s))).
Proof.
  run_call.
  all: unfold look_at_invocations; simpl; rewrite <- ?app_assoc; simpl.
  all: rewrite ?filter_app, ?length_app; simpl.
  all: try (left; lia).
  all: right; do 6 eexists;
    repeat (split; [first [reflexivity | eassumption]|]);
    (split; [lia | rewrite ?in_app_iff; simpl; tauto]).
Qed.

End MyBenchmark_protocol.

(** ** Scoring a RandomITModel *)

Section MyBenchmark_on_RandomITModel.
Context {L : Library} {R : Numpy.Random} {P : Numpy.Printing}.

(** What [look_at] returns for [stimuli], with the time bin squeezed away. *)
Lemma squeeze_look_at (stimuli : StimulusSet) (o : RandomITModel.t) (out : list string) :
  exists predictions,
    (exists recordings,
        outcome (RandomITModel.look_at stimuli) {| obj := o; stdout := out |}
        = Ok recordings
        /\ squeeze "time_bin" recordings = Ok predictions)
    /\ shape (values predictions) = [len stimuli; RandomITModel._num_neurons o]
    /\ dims predictions = ["presentation"; "neuroid"]
    /\ flat (values predictions)
       = fst (random_samples (len stimuli * RandomITModel._num_neurons o) (Numpy.seed 0)).
Proof.
  unfold outcome. rewrite look_at_run. simpl.
  destruct (rand_shape (Numpy.seed 0)
                       [len stimuli; RandomITModel._num_neurons o; 1%nat]) as [Hs _].
  eexists. split.
  - eexists. split; [reflexivity|].
    unfold squeeze. simpl. rewrite Hs. simpl. reflexivity.
  - simpl. rewrite rand_flat. simpl. rewrite Nat.mul_1_r. auto.
Qed.

(** X12: a [RandomITModel] gets through the experiment of the benchmark in
    any state: it accepts the passive task, the target "IT" and the one bin
    100-120, declares 8 degrees, and returns predictions whose time bin can
    be squeezed away.  So when the stored assembly has a stimulus set and
    [place_on_screen] (asked for 8 degrees from 8) and [average_repetition]
    return, the outcome of [__call__] is that of the metric, the ceiling
    estimator and the normalization alone; the predictions scored are of
    shape (len(stimuli), neurons); and the model is left recording
    100-120. *)
Theorem call_on_RandomITModel
        (s : Session RandomITModel.t) (source_set stimuli : StimulusSet)
        (assembly : DataAssembly) :
  stimulus_set (_assembly (self s)) = Ok source_set ->
  place_on_screen source_set 8 8 = Ok stimuli ->
  average_repetition (_assembly (self s)) = Ok assembly ->
  exists predictions,
    shape (values predictions)
    = [len stimuli; RandomITModel._num_neurons (candidate s)]
    /\ dims predictions = ["presentation"; "neuroid"]
    /\ outcome __call__ s
       = (unceiled <~ _similarity_metric (self s) predictions assembly ;;
          ceiling_score <~ _ceiler (self s) (_assembly (self s)) ;;
          explained_variance unceiled ceiling_score)
    /\ candidate (exec __call__ s)
       = {| RandomITModel._num_neurons := RandomITModel._num_neurons (candidate s);
            RandomITModel._time_bin_start := Some 100%Z;
            RandomITModel._time_bin_end := Some 120%Z |}
    /\ console (exec __call__ s)
       = console s
           ++ [ "Starting task Task.passive";
                "Recording from IT during [array([100, 120])] ms";
                "Declaring model to have a visual field size of 8 degrees";
                ("Looking at " ++ str_nat (len stimuli) ++ " stimuli")%string;
                "Computing model-match" ]
           ++ (if is_raise (_similarity_metric (self s) predictions assembly)
               then [] else ["Computing ceiling"]).
Proof.
  intros Hset Hplace Havg.
  destruct s as [this o out trace]. simpl in *.
  destruct (squeeze_look_at
              stimuli
              {| RandomITModel._num_neurons := RandomITModel._num_neurons o;
                 RandomITModel._time_bin_start := Some 100%Z;
                 RandomITModel._time_bin_end := Some 120%Z |}
              (((out ++ ["Starting task Task.passive"])
                  ++ ["Recording from IT during [array([100, 120])] ms"])
                 ++ ["Declaring model to have a visual field size of 8 degrees"]))
    as [predictions [[recordings [Hlook Hsq]] [Hshape [Hdims _]]]].
  exists predictions. split; [exact Hshape|]. split; [exact Hdims|].
  unfold outcome in Hlook.
  unfold exec, outcome, __call__, ceiling, bind, get_this, record, on_candidate,
    modify, lift, print, ret. simpl.
  rewrite Hset. simpl. rewrite Hplace. simpl.
  rewrite look_at_run in *. simpl in *.
  inversion Hlook; subst recordings; clear Hlook.
  rewrite Havg, Hsq.
  destruct (_similarity_metric this predictions assembly) as [unceiled|e]; simpl.
  - destruct (_ceiler this (_assembly this)) as [ceiling_score|e]; simpl.
    + destruct (explained_variance unceiled ceiling_score); simpl;
        rewrite <- !app_assoc; auto.
    + rewrite <- !app_assoc; auto.
  - rewrite <- !app_assoc; auto.
Qed.

End MyBenchmark_on_RandomITModel.

(** ** MyBenchmark.__init__: what the stored assembly is *)

Section Selection.

Lemma String_compare_refl (x : string) : String.compare x x = Eq.
Proof.
  pose proof (String.compare_antisym x x) as H.
  destruct (String.compare x x); simpl in H; congruence.
Qed.

Lemma label_compare_eq (a b : pyval) : label_compare a b = Eq -> a = b.
Proof.
  destruct a as [|x|x|], b as [|y|y|]; simpl; try discriminate; try reflexivity.
  - intros E. apply Z.compare_eq in E. now subst.
  - intros E. apply String.compare_eq_iff in E. now subst.
Qed.

(** Equal labels are the same label, and NaN is equal to none. *)
Lemma label_eqb_eq (a b : pyval) : label_eqb a b = true <-> a = b /\ a <> PyNaN.
Proof.
  split.
  - destruct a as [|x|x|], b as [|y|y|]; simpl; try discriminate;
      try (intros _; split; [reflexivity | discriminate]).
    + destruct (Z.compare x y) eqn:E; try discriminate.
      apply Z.compare_eq in E. subst. intros _. split; [reflexivity | discriminate].
    + destruct (String.compare x y) eqn:E; try discriminate.
      apply String.compare_eq_iff in E. subst. intros _.
      split; [reflexivity | discriminate].
  - intros [<- Hnan]. destruct a as [|x|x|]; simpl.
    + reflexivity.
    + now rewrite Z.compare_refl.
    + now rewrite String_compare_refl.
    + contradiction.
Qed.

Lemma contains_In (ids : list pyval) (x : pyval) :
  contains ids x = true <-> In x ids /\ x <> PyNaN.
Proof.
  unfold contains. rewrite existsb_exists. split.
  - intros [y [Hy Hxy]]. apply label_eqb_eq in Hxy. destruct Hxy as [-> Hnan]. auto.
  - intros [H Hnan]. exists x. split; [exact H | now apply label_eqb_eq].
Qed.

Lemma isnan_neq (x : pyval) : negb (isnan x) = true <-> x <> PyNaN.
Proof. destruct x; simpl; split; congruence. Qed.

Lemma insert_unique_In (x y : pyval) (l : list pyval) :
  In y (insert_unique x l) <-> y = x \/ In y l.
Proof.
  induction l as [|z l IH]; simpl.
  - intuition.
  - destruct (label_compare x z) eqn:E; simpl.
    + apply label_compare_eq in E. subst. intuition.
    + intuition.
    + rewrite IH. intuition.
Qed.

Lemma unique_In (x : pyval) (l : list pyval) : In x (unique l) <-> In x l.
Proof.
  unfold unique. induction l as [|y l IH]; simpl; [tauto|].
  rewrite insert_unique_In, IH. intuition.
Qed.

Lemma nonzero_from_length {A} (f : A -> bool) (l : list A) (i : nat) :
  List.length (nonzero_from i (map f l)) = List.length (filter f l).
Proof.
  revert i. induction l as [|x l IH]; intros i; simpl; [reflexivity|].
  destruct (f x); simpl; now rewrite IH.
Qed.

Lemma pick_nonzero_from {A} (f : A -> bool) (pre l : list A) :
  pick (pre ++ l) (nonzero_from (List.length pre) (map f l)) = Ok (filter f l).
Proof.
  revert pre. induction l as [|x l IH]; intros pre; simpl; [reflexivity|].
  assert (Hnext : pick (pre ++ x :: l) (nonzero_from (S (List.length pre)) (map f l))
                  = Ok (filter f l)).
  { specialize (IH (pre ++ [x])).
    rewrite <- app_assoc, length_app in IH. simpl in IH.
    rewrite Nat.add_1_r in IH. exact IH. }
  destruct (f x); simpl; [|exact Hnext].
  rewrite Hnext, nth_error_app2, Nat.sub_diag by lia. reflexivity.
Qed.

Lemma pick_nonzero {A} (f : A -> bool) (l : list A) :
  pick l (nonzero (map f l)) = Ok (filter f l).
Proof. apply (pick_nonzero_from f [] l). Qed.

(** What selecting along [d] does to the coordinate that a name finds. *)
Lemma pick_labels_find (d : string) (idx : list nat) (n : string)
      (cs cs' : list Coord) :
  pick_labels d idx cs = Ok cs' ->
  match find (fun c => String.eqb (coord_name c) n) cs with
  | None => find (fun c => String.eqb (coord_name c) n) cs' = None
  | Some c =>
      exists c',
        find (fun c => String.eqb (coord_name c) n) cs' = Some c'
        /\ coord_dim c' = coord_dim c
        /\ (if match coord_dim c with
               | Some d' => String.eqb d' d
               | None => false
               end
            then pick (coord_values c) idx = Ok (coord_values c')
            else coord_values c' = coord_values c)
  end.
Proof.
  revert cs'. induction cs as [|c cs IH]; intros cs'; simpl.
  - intros H. inversion H. reflexivity.
  - destruct (if match coord_dim c with
                 | Some d' => String.eqb d' d
                 | None => false
                 end
              then pick (coord_values c) idx else Ok (coord_values c))
      as [labels|e] eqn:Hc; [|discriminate].
    destruct (pick_labels d idx cs) as [rest|e] eqn:Hrest; [|discriminate].
    intros H. inversion H; subst cs'; clear H. simpl.
    destruct (String.eqb (coord_name c) n).
    + eexists. split; [reflexivity|]. simpl. split; [reflexivity|].
      destruct (match coord_dim c with
                | Some d' => String.eqb d' d
                | None => false
                end); [exact Hc | now inversion Hc].
    + apply IH. reflexivity.
Qed.

Lemma dim_size_set_size (ds : list string) (shp : list nat) (d d' : string) (n : nat) :
  dim_size ds (set_size ds shp d n) d'
  = if String.eqb d d'
    then match dim_size ds shp d with Some _ => Some n | None => None end
    else dim_size ds shp d'.
Proof.
  revert shp. induction ds as [|x ds IH]; intros shp; simpl.
  - now destruct (String.eqb d d').
  - destruct shp as [|m shp]; simpl.
    + now destruct (String.eqb d d').
    + destruct (String.eqb_spec x d) as [->|Hxd]; simpl.
      * destruct (String.eqb_spec d d') as [->|Hdd]; [reflexivity|].
        reflexivity.
      * destruct (String.eqb_spec x d') as [->|Hxd'].
        -- destruct (String.eqb_spec d d') as [->|]; [contradiction | reflexivity].
        -- apply IH.
Qed.

End Selection.

Section MyBenchmark_construction.
Context {B : Brainscore}.

Lemma getitem_mask_ok (d : string) (mask : list bool) (a a' : DataAssembly) :
  getitem_mask d mask a = Ok a' ->
  dims a' = dims a
  /\ attrs_stimulus_set a' = attrs_stimulus_set a
  /\ pick_labels d (nonzero mask) (coords a) = Ok (coords a')
  /\ (forall d',
         dim_size (dims a') (shape (values a')) d'
         = if String.eqb d d' then Some (List.length (nonzero mask))
           else dim_size (dims a) (shape (values a)) d').
Proof.
  unfold getitem_mask, isel.
  destruct (dim_size (dims a) (shape (values a)) d) as [n|] eqn:Hn; [|discriminate].
  destruct (negb (Nat.eqb (List.length mask) n)); [discriminate|].
  destruct (negb (forallb (fun i => Nat.ltb i n) (nonzero mask))); [discriminate|].
  destruct (pick_labels d (nonzero mask) (coords a)) as [cs|e]; [|discriminate].
  intros H. inversion H; subst a'; clear H. simpl.
  repeat split. intros d'. rewrite dim_size_set_size, Hn. reflexivity.
Qed.

Lemma find_filter {A} (p q : A -> bool) (l : list A) (x : A) :
  find p l = Some x -> q x = true -> find p (filter q l) = Some x.
Proof.
  induction l as [|y l IH]; simpl; [discriminate|].
  destruct (p y) eqn:Hp.
  - intros H Hq. inversion H; subst y. rewrite Hq. simpl. now rewrite Hp.
  - intros H Hq. destruct (q y); simpl; [rewrite Hp|]; now apply IH.
Qed.

(** A squeeze that gets through: the dimension had one entry, and the
    coordinates of the other dimensions are kept. *)
Lemma squeeze_ok (d : string) (a a' : DataAssembly) :
  squeeze d a = Ok a' ->
  dim_size (dims a) (shape (values a)) d = Some 1%nat
  /\ dims a' = remove_dim (dims a) (dims a) d
  /\ attrs_stimulus_set a' = attrs_stimulus_set a
  /\ (forall n c,
         find (fun c => String.eqb (coord_name c) n) (coords a) = Some c ->
         on_dim d c = false ->
         coord a' n = Some (coord_values c)).
Proof.
  unfold squeeze.
  destruct (dim_size (dims a) (shape (values a)) d) as [[|[|n]]|]; try discriminate.
  intros H. inversion H; subst a'; clear H. simpl.
  repeat split. intros n c Hfind Hon. unfold coord. simpl.
  rewrite (find_filter _ (fun c => negb (on_dim d c)) _ c Hfind); [reflexivity|].
  now rewrite Hon.
Qed.

(** The stages of a construction that gets through. *)
Lemma init_stages (b : t) :
  __init__ = Ok b ->
  exists packaged starts selected labels subset stimuli,
    get_assembly "dicarlo.MajajHong2015.temporal.public" = Ok packaged
    /\ getitem_coord packaged "time_bin_start" = Ok starts
    /\ getitem_mask "time_bin" (map (fun start => label_eqb start (PyInt 100)) starts)
                    packaged = Ok selected
    /\ getitem_coord selected "image_id" = Ok labels
    /\ getitem_mask "presentation"
                    (map (fun image_id => contains (firstn 1000 (unique labels)) image_id)
                         labels)
                    selected = Ok subset
    /\ stimulus_set subset = Ok stimuli
    /\ squeeze "time_bin"
               (set_stimulus_set subset
                  (isin_image_id (firstn 1000 (unique labels)) stimuli))
       = Ok (_assembly b)
    /\ _similarity_metric b
       = CrossRegressedCorrelation pls_regression pearsonr_correlation 3 "object_name"
    /\ _ceiler b = InternalConsistency.
Proof.
  unfold __init__, and_then.
  destruct (get_assembly _) as [packaged|e] eqn:Hget; [|discriminate].
  destruct (getitem_coord packaged "time_bin_start") as [starts|e] eqn:Hstarts;
    [|discriminate].
  destruct (getitem_mask "time_bin" _ packaged) as [selected|e] eqn:Hsel; [|discriminate].
  destruct (getitem_coord selected "image_id") as [labels|e] eqn:Hlabels; [|discriminate].
  destruct (getitem_mask "presentation" _ selected) as [subset|e] eqn:Hsub; [|discriminate].
  destruct (stimulus_set subset) as [stimuli|e] eqn:Hstim; [|discriminate].
  destruct (squeeze "time_bin" _) as [stored|e] eqn:Hsq; [|discriminate].
  intros H. inversion H; subst b; clear H. simpl.
  exists packaged, starts, selected, labels, subset, stimuli.
  repeat split; auto.
Qed.

(** X13: construction gets through only if exactly one time bin of the
    packaged assembly starts at 100: the selection keeps the bins that start
    at 100, and the squeeze at the end refuses anything but one. *)
Theorem init_needs_one_time_bin (b : t) :
  __init__ = Ok b ->
  exists packaged starts,
    get_assembly "dicarlo.MajajHong2015.temporal.public" = Ok packaged
    /\ getitem_coord packaged "time_bin_start" = Ok starts
    /\ List.length (filter (fun start => label_eqb start (PyInt 100)) starts) = 1%nat.
Proof.
  intros H.
  destruct (init_stages b H)
    as (packaged & starts & selected & labels & subset & stimuli
        & Hget & Hstarts & Hsel & _ & Hsub & _ & Hsq & _).
  exists packaged, starts. split; [exact Hget|]. split; [exact Hstarts|].
  apply getitem_mask_ok in Hsel. destruct Hsel as (_ & _ & _ & Hsize1).
  apply getitem_mask_ok in Hsub. destruct Hsub as (_ & _ & _ & Hsize2).
  apply squeeze_ok in Hsq. destruct Hsq as (Hone & _).
  simpl in Hone. rewrite (Hsize2 "time_bin"), (Hsize1 "time_bin") in Hone. simpl in Hone.
  injection Hone as Hlen. unfold nonzero in Hlen.
  rewrite nonzero_from_length in Hlen. exact Hlen.
Qed.

Lemma coord_find (a : DataAssembly) (n : string) (labels : list pyval) :
  coord a n = Some labels ->
  exists c, find (fun c => String.eqb (coord_name c) n) (coords a) = Some c
            /\ coord_values c = labels.
Proof.
  unfold coord. destruct (find _ (coords a)) as [c|]; simpl; [|discriminate].
  intros H. inversion H. eauto.
Qed.

Lemma firstn_In {A} (n : nat) (l : list A) (x : A) : In x (firstn n l) -> In x l.
Proof.
  intros H. rewrite <- (firstn_skipn n l). apply in_or_app. now left.
Qed.

Lemma filter_all {A} (f : A -> bool) (l : list A) :
  (forall x, In x l -> f x = true) -> filter f l = l.
Proof.
  induction l as [|x l IH]; intros H; simpl; [reflexivity|].
  rewrite (H x (or_introl eq_refl)), IH; [reflexivity|].
  intros y Hy. apply H. now right.
Qed.

Lemma filter_filter_label (x : pyval) (g : pyval -> bool) (l : list pyval) :
  g x = true -> filter (label_eqb x) (filter g l) = filter (label_eqb x) l.
Proof.
  intros Hx. induction l as [|y l IH]; simpl; [reflexivity|].
  destruct (label_eqb x y) eqn:E.
  - pose proof E as E'. apply label_eqb_eq in E'. destruct E' as [<- _].
    rewrite Hx. simpl. rewrite E. now rewrite IH.
  - destruct (g y); simpl; [rewrite E|]; exact IH.
Qed.

(** The image ids and the stimulus set of a benchmark that was built from a
    packaged assembly whose [image_id] labels the presentations. *)
Lemma init_image_ids (b : t) (packaged : DataAssembly) (labels : list pyval) :
  __init__ = Ok b ->
  get_assembly "dicarlo.MajajHong2015.temporal.public" = Ok packaged ->
  coord packaged "image_id" = Some labels ->
  dim_of packaged "image_id" = Some "presentation" ->
  coord (_assembly b) "image_id"
  = Some (filter (contains (firstn 1000 (unique labels))) labels)
  /\ exists stimuli,
      stimulus_set packaged = Ok stimuli
      /\ stimulus_set (_assembly b)
         = Ok (isin_image_id (firstn 1000 (unique labels)) stimuli).
Proof.
  intros H Hget Hlabels Hdim.
  destruct (init_stages b H)
    as (packaged' & starts & selected & labels' & subset & stimuli
        & Hget' & _ & Hsel & Hlabels' & Hsub & Hstim & Hsq & _).
  rewrite Hget in Hget'. inversion Hget'; subst packaged'; clear Hget'.
  apply getitem_mask_ok in Hsel. destruct Hsel as (_ & Hattr1 & Hpick1 & _).
  apply getitem_mask_ok in Hsub. destruct Hsub as (_ & Hattr2 & Hpick2 & _).
  apply squeeze_ok in Hsq. destruct Hsq as (_ & _ & Hattr3 & Hcoord).
  destruct (coord_find _ _ _ Hlabels) as [c [Hfind Hvalues]].
  unfold dim_of in Hdim. rewrite Hfind in Hdim.
  (* the selection of the time bin leaves the labels of the presentations *)
  pose proof (pick_labels_find _ _ "image_id" _ _ Hpick1) as H1.
  rewrite Hfind, Hdim in H1. simpl in H1.
  destruct H1 as [c1 [Hfind1 [Hdim1 Hvalues1]]].
  assert (labels' = labels).
  { unfold getitem_coord, coord in Hlabels'. rewrite Hfind1 in Hlabels'.
    simpl in Hlabels'. inversion Hlabels'. congruence. }
  subst labels'.
  remember (firstn 1000 (unique labels)) as image_ids eqn:Hids.
  (* the selection of the presentations filters them *)
  pose proof (pick_labels_find _ _ "image_id" _ _ Hpick2) as H2.
  rewrite Hfind1, Hdim1 in H2. simpl in H2.
  destruct H2 as [c2 [Hfind2 [Hdim2 Hvalues2]]].
  rewrite Hvalues1, Hvalues, pick_nonzero in Hvalues2.
  inversion Hvalues2 as [Hfiltered].
  split.
  - rewrite (Hcoord "image_id" c2).
    + rewrite <- Hfiltered. reflexivity.
    + exact Hfind2.
    + unfold on_dim. rewrite Hdim2. reflexivity.
  - exists stimuli. split.
    + unfold stimulus_set in *. now rewrite <- Hattr1, <- Hattr2.
    + unfold stimulus_set. rewrite Hattr3. reflexivity.
Qed.

(** X14: of a packaged assembly whose [image_id] labels the presentations,
    the stored assembly keeps the presentations of the first 1000 image ids
    in sorted order, in the order they had: its presentations show at most
    1000 images, and when the packaged assembly has no more than 1000 images
    all its presentations are kept.  (A presentation without an image id,
    one whose label is NaN, is never kept: NaN is in no array.) *)
Theorem init_keeps_first_1000_images
        (b : t) (packaged : DataAssembly) (labels : list pyval) :
  __init__ = Ok b ->
  get_assembly "dicarlo.MajajHong2015.temporal.public" = Ok packaged ->
  coord packaged "image_id" = Some labels ->
  dim_of packaged "image_id" = Some "presentation" ->
  exists image_ids,
    image_ids = firstn 1000 (unique labels)
    /\ (List.length image_ids <= 1000)%nat
    /\ coord (_assembly b) "image_id" = Some (filter (contains image_ids) labels)
    /\ (forall label,
          In label (filter (contains image_ids) labels)
          <-> In label image_ids /\ label <> PyNaN)
    /\ ((List.length (unique labels) <= 1000)%nat ->
        coord (_assembly b) "image_id"
        = Some (filter (fun label => negb (isnan label)) labels)).
Proof.
  intros H Hget Hlabels Hdim.
  destruct (init_image_ids b packaged labels H Hget Hlabels Hdim) as [Hstored _].
  exists (firstn 1000 (unique labels)).
  split; [reflexivity|]. split; [apply firstn_le_length|]. split; [exact Hstored|].
  split.
  - intros label. rewrite filter_In, contains_In. split; [tauto|].
    intros [Hin Hnan]. split; [|split; assumption].
    apply unique_In. eapply firstn_In. exact Hin.
  - intros Hfew. rewrite Hstored. f_equal. apply filter_ext_in.
    intros x Hx. rewrite firstn_all2 by exact Hfew.
    destruct (contains (unique labels) x) eqn:E.
    + apply contains_In in E. symmetry. now apply isnan_neq.
    + destruct (negb (isnan x)) eqn:E'; [|reflexivity].
      apply isnan_neq in E'.
      assert (contains (unique labels) x = true); [|congruence].
      apply contains_In. split; [now apply unique_In | exact E'].
Qed.

(** X15: the stored assembly still has the repetitions: every image that it
    shows has as many presentations in it as in the packaged assembly. *)
Theorem init_keeps_repetitions
        (b : t) (packaged : DataAssembly) (labels : list pyval) :
  __init__ = Ok b ->
  get_assembly "dicarlo.MajajHong2015.temporal.public" = Ok packaged ->
  coord packaged "image_id" = Some labels ->
  dim_of packaged "image_id" = Some "presentation" ->
  exists stored,
    coord (_assembly b) "image_id" = Some stored
    /\ forall label,
        In label stored ->
        List.length (filter (label_eqb label) stored)
        = List.length (filter (label_eqb label) labels).
Proof.
  intros H Hget Hlabels Hdim.
  destruct (init_image_ids b packaged labels H Hget Hlabels Hdim) as [Hstored _].
  eexists. split; [exact Hstored|].
  intros label Hin. apply filter_In in Hin. destruct Hin as [_ Hkept].
  now rewrite filter_filter_label.
Qed.

(** X16: the stimulus set that the stored assembly carries goes with its
    presentations: it holds, in their packaged order, exactly the packaged
    stimuli whose image has a presentation in the stored assembly. *)
Theorem init_stimulus_set_matches_presentations
        (b : t) (packaged : DataAssembly) (labels : list pyval) :
  __init__ = Ok b ->
  get_assembly "dicarlo.MajajHong2015.temporal.public" = Ok packaged ->
  coord packaged "image_id" = Some labels ->
  dim_of packaged "image_id" = Some "presentation" ->
  exists stimuli stored,
    stimulus_set packaged = Ok stimuli
    /\ coord (_assembly b) "image_id" = Some stored
    /\ stimulus_set (_assembly b)
       = Ok (filter (fun row => contains stored (PyStr (image_id row))) stimuli).
Proof.
  intros H Hget Hlabels Hdim.
  destruct (init_image_ids b packaged labels H Hget Hlabels Hdim)
    as [Hstored [stimuli [Hpackaged Hset]]].
  exists stimuli. eexists. split; [exact Hpackaged|]. split; [exact Hstored|].
  rewrite Hset. unfold isin_image_id. f_equal. apply filter_ext.
  intros row.
  destruct (contains (firstn 1000 (unique labels)) (PyStr (image_id row))) eqn:E.
  - symmetry. apply contains_In. split; [|discriminate].
    apply filter_In. split; [|exact E].
    apply contains_In in E. destruct E as [E _].
    apply unique_In. eapply firstn_In. exact E.
  - symmetry. destruct (contains (filter _ labels) (PyStr (image_id row))) eqn:E';
      [|reflexivity].
    apply contains_In in E'. destruct E' as [E' _].
    apply filter_In in E'. destruct E' as [_ E']. congruence.
Qed.

Lemma distinct_not_in (ds : list string) (d : string) :
  distinct ds = true -> ~ In d (remove_dim ds ds d).
Proof.
  induction ds as [|x ds IH]; simpl; [tauto|].
  intros H. apply andb_prop in H. destruct H as [Hx Hds].
  destruct (String.eqb_spec x d) as [->|Hne].
  - intros Hin. apply negb_true_iff in Hx.
    assert (existsb (String.eqb d) ds = true); [|congruence].
    apply existsb_exists. exists d. split; [exact Hin | apply String.eqb_refl].
  - simpl. intros [Heq|Hin]; [contradiction | now apply IH].
Qed.

Lemma remove_dim_other (ds : list string) (d d' : string) :
  d' <> d -> In d' ds -> In d' (remove_dim ds ds d).
Proof.
  intros Hne. induction ds as [|x ds IH]; simpl; [tauto|].
  intros [->|Hin].
  - destruct (String.eqb_spec d' d); [contradiction | now left].
  - destruct (String.eqb x d); [exact Hin | right; now apply IH].
Qed.

Lemma dim_size_In (ds : list string) (shp : list nat) (d : string) (n : nat) :
  dim_size ds shp d = Some n -> In d ds.
Proof.
  revert shp. induction ds as [|x ds IH]; intros shp; simpl; [discriminate|].
  destruct shp as [|m shp]; [discriminate|].
  destruct (String.eqb_spec x d) as [->|Hne]; [now left|].
  intros H. right. eapply IH. exact H.
Qed.

(** X17: missing reference data stops the construction: it raises what
    [get_assembly] raises, a [KeyError] when the packaged assembly has no
    [time_bin_start], and it raises as well when the packaged assembly has
    no [time_bin] dimension, no [image_id] or no stimulus set attached. *)
Theorem init_fails_on_missing_data :
  (forall e,
      get_assembly "dicarlo.MajajHong2015.temporal.public" = Raise e ->
      __init__ = Raise e)
  /\ (forall packaged,
        get_assembly "dicarlo.MajajHong2015.temporal.public" = Ok packaged ->
        coord packaged "time_bin_start" = None ->
        __init__ = Raise (KeyError "time_bin_start"))
  /\ (forall packaged,
        get_assembly "dicarlo.MajajHong2015.temporal.public" = Ok packaged ->
        dim_size (dims packaged) (shape (values packaged)) "time_bin" = None
        \/ coord packaged "image_id" = None
        \/ attrs_stimulus_set packaged = None ->
        is_raise __init__ = true).
Proof.
  split; [|split].
  - intros e Hget. unfold __init__. now rewrite Hget.
  - intros packaged Hget Hnone. unfold __init__, getitem_coord. rewrite Hget. simpl.
    now rewrite Hnone.
  - intros packaged Hget Hmissing.
    destruct __init__ as [b|e] eqn:Hinit; [exfalso | reflexivity].
    destruct (init_stages b Hinit)
      as (packaged' & starts & selected & labels & subset & stimuli
          & Hget' & _ & Hsel & Hlabels & Hsub & Hstim & _).
    rewrite Hget in Hget'. inversion Hget'; subst packaged'; clear Hget'.
    pose proof Hsel as Hsel'.
    apply getitem_mask_ok in Hsel. destruct Hsel as (_ & Hattr1 & Hpick1 & _).
    apply getitem_mask_ok in Hsub. destruct Hsub as (_ & Hattr2 & _ & _).
    destruct Hmissing as [Hdim|[Hcoord|Hattr]].
    + unfold getitem_mask in Hsel'. rewrite Hdim in Hsel'. discriminate.
    + pose proof (pick_labels_find _ _ "image_id" _ _ Hpick1) as H1.
      unfold coord in Hcoord.
      destruct (find _ (coords packaged)); [discriminate|].
      unfold getitem_coord, coord in Hlabels. rewrite H1 in Hlabels. discriminate.
    + unfold stimulus_set in Hstim. rewrite Hattr2, Hattr1, Hattr in Hstim.
      discriminate.
Qed.

(** X18: the stored assembly is the packaged one reduced by its time bin:
    it has the dimensions of the packaged assembly, in their order, without
    [time_bin], among them the presentations, and it has a stimulus set
    attached; the metric is the cross-validated regression correlation with
    3 splits stratified by [object_name]. *)
Theorem init_reduces_time_bin (b : t) (packaged : DataAssembly) :
  __init__ = Ok b ->
  get_assembly "dicarlo.MajajHong2015.temporal.public" = Ok packaged ->
  distinct (dims packaged) = true ->
  dims (_assembly b) = remove_dim (dims packaged) (dims packaged) "time_bin"
  /\ ~ In "time_bin" (dims (_assembly b))
  /\ In "presentation" (dims (_assembly b))
  /\ (exists stimuli, stimulus_set (_assembly b) = Ok stimuli)
  /\ _similarity_metric b
     = CrossRegressedCorrelation pls_regression pearsonr_correlation 3 "object_name".
Proof.
  intros H Hget Hdistinct.
  destruct (init_stages b H)
    as (packaged' & starts & selected & labels & subset & stimuli
        & Hget' & _ & Hsel & _ & Hsub & _ & Hsq & Hmetric & _).
  rewrite Hget in Hget'. inversion Hget'; subst packaged'; clear Hget'.
  pose proof Hsub as Hsub'.
  apply getitem_mask_ok in Hsel. destruct Hsel as (Hdims1 & _).
  apply getitem_mask_ok in Hsub. destruct Hsub as (Hdims2 & _).
  apply squeeze_ok in Hsq. destruct Hsq as (_ & Hdims3 & Hattr3 & _).
  simpl in Hdims3. rewrite Hdims2, Hdims1 in Hdims3.
  split; [exact Hdims3|]. rewrite Hdims3.
  split; [now apply distinct_not_in|].
  split.
  - apply remove_dim_other; [discriminate|]. rewrite <- Hdims1.
    unfold getitem_mask in Hsub'.
    destruct (dim_size (dims selected) (shape (values selected)) "presentation")
      as [n|] eqn:Hn; [|discriminate].
    eapply dim_size_In. exact Hn.
  - split; [|exact Hmetric].
    eexists. unfold stimulus_set. rewrite Hattr3. reflexivity.
Qed.

End MyBenchmark_construction.

(** X19: a run of [__call__] that gets through leaves the candidate and the
    console as the candidate's own four methods left them, in the order
    [start_task], [start_recording], [visual_degrees], [look_at], with the
    two lines of the benchmark printed after them, and it has made the six
    calls of the protocol. *)
Theorem call_effects
        {L : Library} {C : Type} {I : Interface C}
        (s : Session C) (c1 c2 c3 c4 : Console C)
        (source_set stimuli : StimulusSet) (degrees : Z)
        (predictions squeezed assembly : DataAssembly)
        (unceiled ceiling_score score : Score) :
  start_task passive {| obj := candidate s; stdout := console s |} = (Ok tt, c1) ->
  start_recording "IT" [[100; 120]%Z] c1 = (Ok tt, c2) ->
  stimulus_set (_assembly (self s)) = Ok source_set ->
  visual_degrees c2 = (Ok degrees, c3) ->
  place_on_screen source_set degrees 8 = Ok stimuli ->
  look_at stimuli c3 = (Ok predictions, c4) ->
  average_repetition (_assembly (self s)) = Ok assembly ->
  squeeze "time_bin" predictions = Ok squeezed ->
  _similarity_metric (self s) squeezed assembly = Ok unceiled ->
  _ceiler (self s) (_assembly (self s)) = Ok ceiling_score ->
  explained_variance unceiled ceiling_score = Ok score ->
  candidate (exec __call__ s) = obj c4
  /\ console (exec __call__ s)
     = stdout c4 ++ ["Computing model-match"; "Computing ceiling"]
  /\ calls (exec __call__ s) = calls s ++ protocol (self s) stimuli squeezed assembly.
Proof.
  intros Htask Hrec Hset Hdeg Hplace Hlook Havg Hsq Hmetric Hceil Hev.
  unfold exec, __call__, bind, get_this, record, on_candidate, modify,
    lift, print, ret, ceiling. simpl.
  rewrite Htask. destruct c1 as [o1 out1]. simpl.
  rewrite Hrec. destruct c2 as [o2 out2]. simpl.
  rewrite Hset. simpl.
  rewrite Hdeg. destruct c3 as [o3 out3]. simpl.
  rewrite Hplace. simpl.
  rewrite Hlook. destruct c4 as [o4 out4]. simpl.
  rewrite Havg, Hsq. simpl.
  rewrite Hmetric. simpl.
  rewrite Hceil. simpl.
  rewrite Hev. simpl. rewrite <- !app_assoc. auto.
Qed.

(** ** The further properties at concrete inputs *)

Lemma only_start_recording_configures_witness :
  is_raise (outcome (RandomITModel.start_recording "V4" [[100; 120]%Z]) recording) = true
  /\ obj (exec (RandomITModel.start_recording "V4" [[100; 120]%Z]) recording)
     = obj recording.
Proof.
  assert (H : is_raise (outcome (RandomITModel.start_recording "V4" [[100; 120]%Z])
                                recording) = true) by reflexivity.
  split; [exact H|].
  destruct (only_start_recording_configures
              (R := lcg) (obj recording) (stdout recording) two_stimuli passive
              "V4" [[100; 120]%Z]) as (_ & _ & _ & Hkeep & _).
  exact (Hkeep H).
Defined.

Lemma window_set_together_witness :
  RandomITModel.reachable (obj recording)
  /\ exists start stop,
      RandomITModel._time_bin_start (obj recording) = Some start
      /\ RandomITModel._time_bin_end (obj recording) = Some stop.
Proof.
  assert (H : RandomITModel.reachable (R := lcg) (obj recording)).
  { apply (RandomITModel.reachable_start_recording
             RandomITModel.__init__ ["Starting task Task.passive"] "IT" [[100; 120]%Z]).
    constructor. }
  split; [exact H|].
  destruct (window_set_together (obj recording) H) as [[Hnone _]|Hset].
  - discriminate Hnone.
  - exact Hset.
Defined.

Lemma look_at_labels_recorded_window_witness :
  is_raise (outcome (RandomITModel.start_recording "IT" []) recording) = true
  /\ exists recordings,
      outcome (RandomITModel.look_at two_stimuli)
              (exec (RandomITModel.start_recording "IT" []) recording) = Ok recordings
      /\ coords_on recordings "time_bin"
         = [("time_bin_start", [PyInt 100]); ("time_bin_end", [PyInt 120])].
Proof.
  assert (H : is_raise (outcome (RandomITModel.start_recording "IT" []) recording) = true)
    by reflexivity.
  split; [exact H|].
  destruct (look_at_labels_recorded_window
              (R := lcg) RandomITModel.__init__ ["Starting task Task.passive"]
              100%Z 120%Z [] two_stimuli "IT" []) as [_ Hrefused].
  exact (Hrefused H).
Defined.

Lemma look_at_values_ignore_stimuli_witness :
  len two_stimuli = len (rev two_stimuli)
  /\ RandomITModel._num_neurons RandomITModel.__init__
     = RandomITModel._num_neurons (obj recording)
  /\ exists recordings recordings',
      outcome (RandomITModel.look_at two_stimuli)
              {| obj := RandomITModel.__init__; stdout := [] |} = Ok recordings
      /\ outcome (RandomITModel.look_at (rev two_stimuli)) recording = Ok recordings'
      /\ values recordings = values recordings'.
Proof.
  split; [reflexivity|]. split; [reflexivity|].
  exact (look_at_values_ignore_stimuli
           (R := lcg) two_stimuli (rev two_stimuli)
           RandomITModel.__init__ (obj recording) [] (stdout recording)
           eq_refl eq_refl).
Defined.

Lemma call_follows_protocol_witness :
  outcome __call__ session = Ok ceiled
  /\ exists stimuli source target,
      calls (exec __call__ session)
      = calls session ++ protocol (self session) stimuli source target.
Proof.
  assert (H : outcome __call__ session = Ok ceiled) by (vm_compute; reflexivity).
  split; [exact H|].
  destruct (call_follows_protocol session) as (k & stimuli & source & target & Hcalls & Hk).
  rewrite (Hk ceiled H) in Hcalls.
  exists stimuli, source, target. exact Hcalls.
Defined.

Lemma call_on_RandomITModel_witness :
  stimulus_set (_assembly (self failing_metric_session)) = Ok two_stimuli
  /\ place_on_screen two_stimuli 8 8 = Ok two_stimuli
  /\ average_repetition (_assembly (self failing_metric_session)) = Ok reference
  /\ exists predictions,
      shape (values predictions) = [2; 50]%nat
      /\ outcome __call__ failing_metric_session
         = (unceiled <~ _similarity_metric (self failing_metric_session)
                                           predictions reference ;;
            ceiling_score <~ _ceiler (self failing_metric_session)
                                     (_assembly (self failing_metric_session)) ;;
            explained_variance unceiled ceiling_score).
Proof.
  split; [reflexivity|]. split; [reflexivity|]. split; [reflexivity|].
  destruct (call_on_RandomITModel
              (L := library) (R := lcg) failing_metric_session two_stimuli two_stimuli reference
              eq_refl eq_refl eq_refl)
    as (predictions & Hshape & _ & Hout & _).
  exists predictions. split; [exact Hshape | exact Hout].
Defined.

Lemma call_effects_witness :
  candidate (exec __call__ session) = obj looked
  /\ console (exec __call__ session)
     = stdout looked ++ ["Computing model-match"; "Computing ceiling"]
  /\ calls (exec __call__ session)
     = calls session ++ protocol (self session) two_stimuli squeezed reference.
Proof.
  apply (call_effects
           session started recording declared looked two_stimuli two_stimuli 8%Z
           predictions squeezed reference printed_raw printed_ceiling ceiled);
    vm_compute; reflexivity.
Defined.

Lemma built_by_init : MyBenchmark.__init__ = Ok built.
Proof. vm_compute. reflexivity. Qed.

Lemma init_needs_one_time_bin_witness :
  MyBenchmark.__init__ = Ok built
  /\ exists starts,
      getitem_coord packaged "time_bin_start" = Ok starts
      /\ List.length (filter (fun start => label_eqb start (PyInt 100)) starts) = 1%nat.
Proof.
  split; [exact built_by_init|].
  destruct (init_needs_one_time_bin built built_by_init)
    as (packaged' & starts & Hget & Hstarts & Hone).
  assert (Hpackaged : get_assembly "dicarlo.MajajHong2015.temporal.public" = Ok packaged)
    by reflexivity.
  rewrite Hpackaged in Hget. injection Hget as <-. exists starts. split; [exact Hstarts | exact Hone].
Defined.

Lemma init_keeps_first_1000_images_witness :
  (MyBenchmark.__init__ = Ok built
   /\ get_assembly "dicarlo.MajajHong2015.temporal.public" = Ok packaged
   /\ coord packaged "image_id"
      = Some [PyStr "img1"; PyStr "img0"; PyStr "img1"; PyStr "img0"]
   /\ dim_of packaged "image_id" = Some "presentation")
  /\ coord (_assembly built) "image_id"
     = Some [PyStr "img1"; PyStr "img0"; PyStr "img1"; PyStr "img0"].
Proof.
  split; [repeat split; try reflexivity; exact built_by_init|].
  destruct (init_keeps_first_1000_images
              built packaged [PyStr "img1"; PyStr "img0"; PyStr "img1"; PyStr "img0"]
              built_by_init eq_refl eq_refl eq_refl)
    as (image_ids & _ & _ & _ & _ & Hall).
  apply Hall. vm_compute. lia.
Defined.

Lemma init_keeps_repetitions_witness :
  (MyBenchmark.__init__ = Ok built
   /\ get_assembly "dicarlo.MajajHong2015.temporal.public" = Ok packaged
   /\ coord packaged "image_id"
      = Some [PyStr "img1"; PyStr "img0"; PyStr "img1"; PyStr "img0"]
   /\ dim_of packaged "image_id" = Some "presentation")
  /\ exists stored,
      coord (_assembly built) "image_id" = Some stored
      /\ (In (PyStr "img0") stored ->
          List.length (filter (label_eqb (PyStr "img0")) stored) = 2%nat).
Proof.
  split; [repeat split; try reflexivity; exact built_by_init|].
  destruct (init_keeps_repetitions
              built packaged [PyStr "img1"; PyStr "img0"; PyStr "img1"; PyStr "img0"]
              built_by_init eq_refl eq_refl eq_refl)
    as (stored & Hstored & Hcount).
  exists stored. split; [exact Hstored|].
  intros Hin. rewrite (Hcount _ Hin). reflexivity.
Defined.

Lemma init_stimulus_set_matches_presentations_witness :
  (MyBenchmark.__init__ = Ok built
   /\ get_assembly "dicarlo.MajajHong2015.temporal.public" = Ok packaged
   /\ coord packaged "image_id"
      = Some [PyStr "img1"; PyStr "img0"; PyStr "img1"; PyStr "img0"]
   /\ dim_of packaged "image_id" = Some "presentation")
  /\ exists stimuli stored,
      stimulus_set packaged = Ok stimuli
      /\ coord (_assembly built) "image_id" = Some stored
      /\ stimulus_set (_assembly built)
         = Ok (filter (fun row => contains stored (PyStr (image_id row))) stimuli).
Proof.
  split; [repeat split; try reflexivity; exact built_by_init|].
  exact (init_stimulus_set_matches_presentations
           built packaged [PyStr "img1"; PyStr "img0"; PyStr "img1"; PyStr "img0"]
           built_by_init eq_refl eq_refl eq_refl).
Defined.

Lemma init_fails_on_missing_data_witness :
  (get_assembly (Brainscore := brainscore_with packaged_bare)
                "dicarlo.MajajHong2015.temporal.public" = Ok packaged_bare
   /\ attrs_stimulus_set packaged_bare = None)
  /\ is_raise (MyBenchmark.__init__ (B := brainscore_with packaged_bare)) = true.
Proof.
  split; [split; reflexivity|].
  destruct (init_fails_on_missing_data (B := brainscore_with packaged_bare))
    as (_ & _ & Hmissing).
  apply (Hmissing packaged_bare eq_refl). right. right. reflexivity.
Defined.

Lemma init_reduces_time_bin_witness :
  (MyBenchmark.__init__ = Ok built
   /\ get_assembly "dicarlo.MajajHong2015.temporal.public" = Ok packaged
   /\ distinct (dims packaged) = true)
  /\ dims (_assembly built) = ["presentation"; "neuroid"].
Proof.
  split; [repeat split; try reflexivity; exact built_by_init|].
  destruct (init_reduces_time_bin built packaged built_by_init eq_refl eq_refl)
    as (Hdims & _).
  rewrite Hdims. reflexivity.
Defined.
